(** * Urban air-quality monitoring: multi-city ETL pipeline

    A shallow embedding of the decision logic of the pipeline:
    - [transform.py]: record construction from the raw hourly arrays, the
      all-missing row filter, and the three derived fields (category,
      severity, risk) plus the hour of day;
    - [load.py]: the batching of the staged rows and the insert loop with
      its retry branch;
    - [etl_analysis.py]: the per-city and per-hour group means (pandas'
      compensated sums) and the selection of the city and of the hour
      with the highest mean.

    Numbers are IEEE binary64 values, as pandas holds them in a float64
    column and as the store keeps them (DOUBLE PRECISION); Rocq's primitive
    floats are that format.  A missing value is either Python's [None] or
    the float NaN, and the two behave differently under arithmetic and
    comparison, so both are kept. *)

From Stdlib Require Import Floats ZArith List Lia Bool Sorting.Sorted Ascii.
From stdpp Require Import base option gmap strings list.
Import ListNotations.
Open Scope string_scope.

(** ** Python values, exceptions and indexing *)

Module Py.

(** The exceptions the modelled code can raise. *)
Inductive exn : Type :=
| TypeError
| KeyError
| ValueError
| IndexError.

(** The outcome of running a piece of Python: a value or a raised
    exception. *)
Inductive result (A : Type) : Type :=
| Ok (a : A)
| Raise (e : exn).

Arguments Ok {A} a.
Arguments Raise {A} e.

#[global] Instance result_ret : MRet result := fun A a => Ok a.

#[global] Instance result_bind : MBind result := fun A B f m =>
  match m with
  | Ok a => f a
  | Raise e => Raise e
  end.

(** A cell of a data-frame row: Python's [None], or a float (NaN
    included). *)
Inductive cell : Type :=
| PyNone
| PyFloat (x : float).

(** [pd.isna] / [pd.notnull] on a cell. *)
Definition isna (c : cell) : bool :=
  match c with
  | PyNone => true
  | PyFloat x => is_nan x
  end.

Definition is_None (c : cell) : bool :=
  match c with
  | PyNone => true
  | PyFloat _ => false
  end.

(** [values[i]]: list subscription raises [IndexError] out of range. *)
Definition getitem {A : Type} (values : list A) (i : nat) : result A :=
  match values !! i with
  | Some v => Ok v
  | None => Raise IndexError
  end.

(** [x * k] for a cell [x] and a numeric literal [k]: [None] has no
    [__mul__] with a number. *)
Definition mul (x : cell) (k : float) : result float :=
  match x with
  | PyNone => Raise TypeError
  | PyFloat v => Ok (v * k)%float
  end.

(** [x <= k] for a cell [x] and a numeric literal [k]. *)
Definition le (x : cell) (k : float) : result bool :=
  match x with
  | PyNone => Raise TypeError
  | PyFloat v => Ok (v <=? k)%float
  end.

(** [pd.to_numeric] on one element of a JSON array of numbers: a number is
    returned as it is, JSON [null] (Python [None]) becomes NaN. *)
Definition to_numeric (v : option float) : cell :=
  match v with
  | Some x => PyFloat x
  | None => PyFloat nan
  end.

(** A [pandas.Timestamp], as [pd.to_datetime] returns it for the ISO-8601
    hour strings of the API ([YYYY-MM-DDTHH:MM]). *)
Record Timestamp : Type := mkTimestamp {
  year : nat;
  month : nat;
  day : nat;
  hour : nat;
  minute : nat
}.

(** *** Strings

    The case mappings are those of [str.lower], [str.upper] and
    [str.capitalize] on ASCII text; the file and city names of the
    pipeline are ASCII. *)

Definition is_upper (c : Ascii.ascii) : bool :=
  let n := Ascii.N_of_ascii c in (65 <=? n)%N && (n <=? 90)%N.

Definition is_lower (c : Ascii.ascii) : bool :=
  let n := Ascii.N_of_ascii c in (97 <=? n)%N && (n <=? 122)%N.

Definition ascii_lower (c : Ascii.ascii) : Ascii.ascii :=
  if is_upper c then Ascii.ascii_of_N (Ascii.N_of_ascii c + 32) else c.

Definition ascii_upper (c : Ascii.ascii) : Ascii.ascii :=
  if is_lower c then Ascii.ascii_of_N (Ascii.N_of_ascii c - 32) else c.

(** [s.lower()]. *)
Fixpoint lower (s : string) : string :=
  match s with
  | EmptyString => EmptyString
  | String c s' => String (ascii_lower c) (lower s')
  end.

(** [s.capitalize()]: the first character in upper case, the rest in lower
    case. *)
Definition capitalize (s : string) : string :=
  match s with
  | EmptyString => EmptyString
  | String c s' => String (ascii_upper c) (lower s')
  end.

(** [s.split(sep)[0]]: the part of [s] before the first occurrence of
    [sep], all of [s] when there is none. *)
Fixpoint before_sep (sep s : string) : string :=
  if String.prefix sep s then EmptyString
  else match s with
       | EmptyString => EmptyString
       | String c s' => String c (before_sep sep s')
       end.

(** [name.rfind(".")]. *)
Fixpoint rfind_dot (name : string) : option nat :=
  match name with
  | EmptyString => None
  | String c name' =>
      match rfind_dot name' with
      | Some i => Some (S i)
      | None => if Ascii.eqb c "."%char then Some 0 else None
      end
  end.

(** [Path(name).stem]: the name without its last suffix; a leading or a
    trailing dot does not start a suffix. *)
Definition stem (name : string) : string :=
  match rfind_dot name with
  | Some i =>
      if (0 <? i)%nat && (i <? String.length name - 1)%nat
      then String.substring 0 i name
      else name
  | None => name
  end.

End Py.

Import Py.

(** ** transform.py *)

Module Transform.

(** *** Raw input *)

(** The [hourly] object of one API response: the [time] array and one
    array of nullable numbers per pollutant.  Either may be absent. *)
Record Hourly : Type := mkHourly {
  time_array : option (list Timestamp);
  arrays : gmap string (list (option float))
}.

(** One raw file: the city inferred from its name and the [hourly] entry
    of its JSON content, if any. *)
Record RawFile : Type := mkRawFile {
  city_name : string;
  hourly : option Hourly
}.

(** [not hourly_data]: the dictionary is empty. *)
Definition hourly_is_empty (hourly_data : Hourly) : bool :=
  match time_array hourly_data with
  | Some _ => false
  | None => Nat.eqb (size (arrays hourly_data)) 0
  end.

Definition pollutant_cols : list string :=
  ["pm10"; "pm2_5"; "carbon_monoxide"; "nitrogen_dioxide";
   "sulphur_dioxide"; "ozone"; "uv_index"].

(** *** Record construction *)

(** A record under construction, and a row of the data frame: the city,
    the timestamp and the pollutant cells by column name. *)
Record record : Type := mkRecord {
  city : string;
  time : Timestamp;
  cells : gmap string cell
}.

(** The right-hand side of [record[pollutant] = ...]: the i-th value of the
    pollutant's array when the index is in range, [None] otherwise. *)
Definition pollutant_cell (hourly_data : Hourly) (i : nat)
    (pollutant : string) : result cell :=
  let values := default [] (arrays hourly_data !! pollutant) in
  if (i <? length values)%nat
  then v ← Py.getitem values i; mret (to_numeric v)
  else mret PyNone.

(** The inner loop over the pollutant names. *)
Fixpoint fill_cells (hourly_data : Hourly) (i : nat)
    (pollutants : list string) (rec : gmap string cell)
  : result (gmap string cell) :=
  match pollutants with
  | [] => mret rec
  | pollutant :: rest =>
      c ← pollutant_cell hourly_data i pollutant;
      fill_cells hourly_data i rest (<[pollutant := c]> rec)
  end.

(** The body of the loop over [enumerate(times)]. *)
Definition make_record (city_name : string) (hourly_data : Hourly)
    (i : nat) (t : Timestamp) : result record :=
  cs ← fill_cells hourly_data i pollutant_cols ∅;
  mret (mkRecord city_name t cs).

(** The records one raw file contributes. *)
Definition file_records (f : RawFile) : result (list record) :=
  match hourly f with
  | None => mret []
  | Some hourly_data =>
      if hourly_is_empty hourly_data then mret [] else
      let times := default [] (time_array hourly_data) in
      mapM (fun it => make_record (city_name f) hourly_data it.1 it.2)
           (imap pair times)
  end.

(** [all_records] after the loop over the raw files. *)
Definition collect_records (files : list RawFile) : result (list record) :=
  rs ← mapM file_records files;
  mret (concat rs).

(** *** The data frame *)

(** Column typing of [pd.DataFrame(all_records)]: a column in which every
    record holds [None] stays an object column of [None]s; any other
    column becomes float64, where [None] is stored as NaN. *)
Definition object_column (records : list record) (col : string) : bool :=
  forallb (fun r => is_None (default PyNone (cells r !! col))) records.

Definition frame_cell (records : list record) (col : string) (c : cell)
  : cell :=
  if object_column records col then c
  else match c with
       | PyNone => PyFloat nan
       | PyFloat x => PyFloat x
       end.

Definition DataFrame (records : list record) : list record :=
  map (fun r =>
         mkRecord (city r) (time r)
           (map_imap (fun col c => Some (frame_cell records col c))
                     (cells r)))
      records.

(** [df[col]] at one row; the seven pollutant columns exist in every
    frame built from at least one record. *)
Definition column (col : string) (r : record) : cell :=
  default PyNone (cells r !! col).

(** A row is all-missing on [subset] when every listed cell is NA. *)
Definition all_missing (subset : list string) (r : record) : bool :=
  forallb (fun col => isna (column col r)) subset.

(** [df.dropna(subset=..., how="all")].  A frame built from no record has
    no columns, and looking the subset up raises [KeyError]. *)
Definition dropna_all (subset : list string) (df : list record)
  : result (list record) :=
  match df with
  | [] => Raise KeyError
  | _ => Ok (List.filter (fun r => negb (all_missing subset r)) df)
  end.

(** *** The derived fields *)

(** AQI category of a PM2.5 reading. *)
Definition aqi_pm25_category (pm25 : cell) : result string :=
  b50 ← Py.le pm25 50;
  if b50 : bool then mret "Good" else
  b100 ← Py.le pm25 100;
  if b100 : bool then mret "Moderate" else
  b200 ← Py.le pm25 200;
  if b200 : bool then mret "Unhealthy" else
  b300 ← Py.le pm25 300;
  if b300 : bool then mret "Very Unhealthy" else
  mret "Hazardous".

(** [row.get(key, default)]: the default is used only when the row has no
    such key; a key that is present with a missing value yields that
    missing value. *)
Definition row_get (row : gmap string cell) (key : string) (dflt : cell)
  : cell :=
  default dflt (row !! key).

(** Pollution severity score: the weighted sum, added left to right. *)
Definition compute_severity (row : gmap string cell) : result float :=
  a ← Py.mul (row_get row "pm2_5" (PyFloat 0)) 5;
  b ← Py.mul (row_get row "pm10" (PyFloat 0)) 3;
  c ← Py.mul (row_get row "nitrogen_dioxide" (PyFloat 0)) 4;
  d ← Py.mul (row_get row "sulphur_dioxide" (PyFloat 0)) 4;
  e ← Py.mul (row_get row "carbon_monoxide" (PyFloat 0)) 2;
  f ← Py.mul (row_get row "ozone" (PyFloat 0)) 3;
  mret (a + b + c + d + e + f)%float.

(** Risk classification of a severity score. *)
Definition risk_classification (severity : float) : string :=
  if (400 <? severity)%float then "High Risk"
  else if (200 <? severity)%float then "Moderate Risk"
  else "Low Risk".

(** *** The pipeline *)

(** A row of the staged table. *)
Record StagedRow : Type := mkStagedRow {
  base : record;
  AQI_Category : string;
  Pollution_Severity : float;
  Risk_Level : string;
  hour_of_day : nat
}.

Definition staged_row (r : record) (cat_sev : string * float) : StagedRow :=
  mkStagedRow r cat_sev.1 cat_sev.2
    (risk_classification cat_sev.2) (Py.hour (time r)).

(** Main transform: records, frame, row filter, then the derived columns
    one after the other. *)
Definition transform_pipeline (files : list RawFile)
  : result (list StagedRow) :=
  all_records ← collect_records files;
  df ← dropna_all pollutant_cols (DataFrame all_records);
  cats ← mapM (fun r => aqi_pm25_category (column "pm2_5" r)) df;
  sevs ← mapM (fun r => compute_severity (cells r)) df;
  mret (zip_with staged_row df (zip cats sevs)).

(** *** Vocabulary of the properties and scenario inputs *)

(** The order of the three risk labels. *)
Definition risk_tier (label : string) : option nat :=
  if String.eqb label "Low Risk" then Some 0
  else if String.eqb label "Moderate Risk" then Some 1
  else if String.eqb label "High Risk" then Some 2
  else None.

(** The six pollutants of the weighted sum. *)
Definition WEIGHTED : list string :=
  ["pm2_5"; "pm10"; "nitrogen_dioxide"; "sulphur_dioxide";
   "carbon_monoxide"; "ozone"].

(** The cell a record gets for one pollutant at index [i]. *)
Definition cell_at (hourly_data : Hourly) (i : nat) (pollutant : string)
  : cell :=
  match arrays hourly_data !! pollutant with
  | Some values =>
      match values !! i with
      | Some v => to_numeric v
      | None => PyNone
      end
  | None => PyNone
  end.

(** The cells of the record built at index [i]. *)
Definition built_cells (hourly_data : Hourly) (i : nat) : gmap string cell :=
  foldl (fun m p => <[p := cell_at hourly_data i p]> m) ∅ pollutant_cols.

(** A row that has all seven pollutant columns. *)
Definition has_columns (r : record) : Prop :=
  forall p : string, p ∈ pollutant_cols -> is_Some (cells r !! p).

(** The timestamp of hour [h] of 2024-01-01. *)
Definition at_hour (h : nat) : Timestamp := mkTimestamp 2024 1 1 h 0.

(** A raw file for one city on that day, from its hours and arrays. *)
Definition raw_file (c : string) (hours : list nat)
    (series : list (string * list (option float))) : RawFile :=
  mkRawFile c (Some (mkHourly (Some (map at_hour hours)) (list_to_map series))).

(** The rows of a run, none when it raised. *)
Definition rows_of (run : result (list StagedRow)) : list StagedRow :=
  match run with
  | Ok rows => rows
  | Raise _ => []
  end.

(** One hour in which the six weighted pollutants are null and the UV
    index is present. *)
Definition uv_only : RawFile :=
  raw_file "Delhi" [0]
    [("pm10", [None]); ("pm2_5", [None]); ("carbon_monoxide", [None]);
     ("nitrogen_dioxide", [None]); ("sulphur_dioxide", [None]);
     ("ozone", [None]); ("uv_index", [Some 3%float])].

(** One hour with PM2.5 null and PM10 present. *)
Definition pm10_only : RawFile :=
  raw_file "Delhi" [0]
    [("pm10", [Some 10%float]); ("pm2_5", [None]);
     ("carbon_monoxide", [None]); ("nitrogen_dioxide", [None]);
     ("sulphur_dioxide", [None]); ("ozone", [None]); ("uv_index", [None])].

(** Two hours with PM2.5 40 and 120 and every other pollutant null. *)
Definition two_hours : RawFile :=
  raw_file "Delhi" [0; 1]
    [("pm10", [None; None]); ("pm2_5", [Some 40%float; Some 120%float]);
     ("carbon_monoxide", [None; None]); ("nitrogen_dioxide", [None; None]);
     ("sulphur_dioxide", [None; None]); ("ozone", [None; None]);
     ("uv_index", [None; None])].

(** The same two hours when the other arrays are absent from the file. *)
Definition two_hours_pm25_alone : RawFile :=
  raw_file "Delhi" [0; 1] [("pm2_5", [Some 40%float; Some 120%float])].

(** Two hours of which the first holds null for every pollutant and the
    second a value for every pollutant. *)
Definition null_first_hour : RawFile :=
  raw_file "Delhi" [0; 1]
    [("pm10", [None; Some 10%float]); ("pm2_5", [None; Some 40%float]);
     ("carbon_monoxide", [None; Some 1%float]);
     ("nitrogen_dioxide", [None; Some 2%float]);
     ("sulphur_dioxide", [None; Some 3%float]);
     ("ozone", [None; Some 4%float]); ("uv_index", [None; Some 5%float])].

(** The order of the five AQI categories. *)
Definition aqi_tier (label : string) : option nat :=
  if String.eqb label "Good" then Some 0
  else if String.eqb label "Moderate" then Some 1
  else if String.eqb label "Unhealthy" then Some 2
  else if String.eqb label "Very Unhealthy" then Some 3
  else if String.eqb label "Hazardous" then Some 4
  else None.

(** The records a raw file contributes: one per timestamp, in order. *)
Definition file_rows (f : RawFile) : list record :=
  match hourly f with
  | Some hourly_data =>
      imap (fun i t => mkRecord (city_name f) t (built_cells hourly_data i))
           (default [] (time_array hourly_data))
  | None => []
  end.

(** The three derived columns computed over the kept rows. *)
Definition derive (df : list record) : result (list StagedRow) :=
  cats ← mapM (fun r => aqi_pm25_category (column "pm2_5" r)) df;
  sevs ← mapM (fun r => compute_severity (cells r)) df;
  mret (zip_with staged_row df (zip cats sevs)).

(** The city a raw file stands for, read off its name: the part of the
    stem before [_raw_], capitalized. *)
Definition city_of_file (name : string) : string :=
  capitalize (before_sep "_raw_" (stem name)).

(** The timestamps a raw file contributes. *)
Definition times_of (f : RawFile) : list Timestamp :=
  match hourly f with
  | Some hourly_data => default [] (time_array hourly_data)
  | None => []
  end.

End Transform.

(** ** load.py *)

Module Load.

(** *** Batching *)

(** The values [range(start, stop, step)] yields for a positive step:
    [i] is produced while [i < stop].  The iteration is bounded by the
    number of values left below [stop]. *)
Fixpoint range_from (fuel i stop step : nat) : list nat :=
  match fuel with
  | 0 => []
  | S fuel' =>
      if (i <? stop)%nat then i :: range_from fuel' (i + step) stop step
      else []
  end.

(** [range(start, stop, step)]; a zero step raises [ValueError]. *)
Definition range (start stop step : nat) : result (list nat) :=
  if (step =? 0)%nat then Raise ValueError
  else Ok (range_from (stop - start) start stop step).

(** [l[i:j]] for [0 <= i <= j]: slicing clamps at the end of the list. *)
Definition slice {A : Type} (l : list A) (i j : nat) : list A :=
  take (j - i) (drop i l).

(** The start offsets and the batches the insert loop goes through. *)
Definition batches {A : Type} (records : list A) (batch_size : nat)
  : result (list (nat * list A)) :=
  starts ← range 0 (length records) batch_size;
  mret (map (fun i => (i, slice records i (i + batch_size))) starts).

(** *** The insert loop *)

(** What [supabase.table(...).insert(batch).execute()] can do: return a
    response without an error, return a response whose [error] is set, or
    raise. *)
Inductive response : Type :=
| Inserted
| ErrorResponse
| Raised.

(** Console messages of the loader. *)
Inductive message : Type :=
| MsgLoading (total batch_size : nat)
| MsgInsertFailed (batch_no : nat)
| MsgRetrying
| MsgRetrySuccess
| MsgInsertedBatch (batch_no : nat)
| MsgRetryFailed
| MsgLoadComplete.

(** The observable actions of a load, in order. *)
Inductive event (A : Type) : Type :=
| Insert (batch : list A)
| Sleep (seconds : nat)
| Print (m : message).

Arguments Insert {A} batch.
Arguments Sleep {A} seconds.
Arguments Print {A} m.

Section Loader.

Context {A : Type}.

(** The store: how it answers the k-th insert request of the run, given
    the batch the request carries. *)
Variable execute : nat -> list A -> response.

(** Loader state: the number of insert requests sent so far and the
    actions performed so far. *)
Record state : Type := mkState {
  requests : nat;
  trace : list (event A)
}.

Definition emit (e : event A) (st : state) : state :=
  mkState (requests st) (trace st ++ [e]).

(** One insert request: the request is recorded and the store answers. *)
Definition insert (batch : list A) (st : state) : response * state :=
  (execute (requests st) batch,
   mkState (S (requests st)) (trace st ++ [Insert batch])).

(** The body of the loop for the batch starting at offset [i]. *)
Definition load_batch (batch_size : nat) (i : nat) (batch : list A)
    (st : state) : state :=
  let batch_no := Nat.div i batch_size + 1 in
  let (res, st1) := insert batch st in
  match res with
  | Raised => emit (Print MsgRetryFailed) st1
  | ErrorResponse =>
      let st2 := emit (Print (MsgInsertFailed batch_no)) st1 in
      let st3 := emit (Print MsgRetrying) st2 in
      let st4 := emit (Sleep 3) st3 in
      let (res', st5) := insert batch st4 in
      match res' with
      | Raised => emit (Print MsgRetryFailed) st5
      | _ => emit (Print MsgRetrySuccess) st5
      end
  | Inserted => emit (Print (MsgInsertedBatch batch_no)) st1
  end.

(** The loop over the batches. *)
Definition load_loop (batch_size : nat) (bs : list (nat * list A))
    (st : state) : state :=
  fold_left (fun st b => load_batch batch_size b.1 b.2 st) bs st.

(** The load from line 97 on: [records] are the rows that
    [_read_staged_csv] returned at line 96. *)
Definition load_to_supabase (records : list A) (batch_size : nat)
  : result state :=
  let st0 :=
    emit (Print (MsgLoading (length records) batch_size)) (mkState 0 []) in
  bs ← batches records batch_size;
  mret (emit (Print MsgLoadComplete) (load_loop batch_size bs st0)).

End Loader.

(** The batches sent to the store, in order, one entry per request. *)
Definition inserted {A : Type} (tr : list (event A)) : list (list A) :=
  omap (fun e => match e with Insert b => Some b | _ => None end) tr.

(** *** Vocabulary of the properties *)

(** The ceiling of [n / b]. *)
Definition ceil_div (n b : nat) : nat := Nat.div (n + b - 1) b.

(** The requests one batch causes when it is the k-th request of the run:
    two when the first answer carries an error, one otherwise. *)
Definition attempts {A : Type} (execute : nat -> list A -> response)
    (k : nat) (batch : list A) : list (list A) :=
  match execute k batch with
  | ErrorResponse => [batch; batch]
  | _ => [batch]
  end.

(** The column renaming of [_read_staged_csv]: a column named in the map
    takes the mapped name, any other column keeps its name. *)
Definition rename_map : list (string * string) :=
  [("AQI_Category", "aqi_category");
   ("Pollution_Severity", "severity_score");
   ("Risk_Level", "risk_flag");
   ("pm2.5", "pm2_5");
   ("PM2.5", "pm2_5");
   ("PM10", "pm10");
   ("Carbon_Monoxide", "carbon_monoxide");
   ("Nitrogen_Dioxide", "nitrogen_dioxide");
   ("Sulphur_Dioxide", "sulphur_dioxide");
   ("Ozone", "ozone");
   ("UV_Index", "uv_index");
   ("Hour", "hour");
   ("City", "city")].

Fixpoint assoc (key : string) (m : list (string * string)) : option string :=
  match m with
  | [] => None
  | (k, v) :: rest => if String.eqb k key then Some v else assoc key rest
  end.

Definition rename (col : string) : string :=
  default col (assoc col rename_map).

(** The columns of the staged table, in the order the transform creates
    them: the keys of a record, then the four derived columns. *)
Definition staged_columns : list string :=
  ["city"; "time"; "pm10"; "pm2_5"; "carbon_monoxide"; "nitrogen_dioxide";
   "sulphur_dioxide"; "ozone"; "uv_index"; "AQI_Category";
   "Pollution_Severity"; "Risk_Level"; "hour"].

(** The columns of [CREATE_TABLE_SQL], the generated [id] first. *)
Definition table_columns : list string :=
  ["id"; "city"; "time"; "pm10"; "pm2_5"; "carbon_monoxide";
   "nitrogen_dioxide"; "sulphur_dioxide"; "ozone"; "uv_index";
   "aqi_category"; "severity_score"; "risk_flag"; "hour"].

(** The seconds a run has slept. *)
Definition slept {A : Type} (tr : list (event A)) : nat :=
  sum_list (omap (fun e => match e with Sleep n => Some n | _ => None end) tr).

(** A store whose first request raises and which accepts the others. *)
Definition first_request_raises {A : Type} (k : nat) (batch : list A)
  : response :=
  match k with
  | 0 => Raised
  | _ => Inserted
  end.

End Load.

(** ** etl_analysis.py *)

Module Analysis.

(** A row of the frame read back from the store, with the columns the
    city KPIs use.  The two number columns are float64 columns: a missing
    number is NaN in the frame. *)
Record StoredRow : Type := mkStoredRow {
  city : string;
  pm2_5 : float;
  severity_score : float
}.

(** A [pandas.Series] indexed by city. *)
Abbreviation Series := (list (string * float)).

(** Insertion of a group key into the sorted list of distinct keys. *)
Fixpoint insert_key (k : string) (keys : list string) : list string :=
  match keys with
  | [] => [k]
  | k' :: rest =>
      match String.compare k k' with
      | Lt => k :: keys
      | Eq => keys
      | Gt => k' :: insert_key k rest
      end
  end.

(** The group keys of [df.groupby("city")]: the distinct cities in
    ascending order ([sort=True] is the default). *)
Definition group_keys (df : list StoredRow) : list string :=
  foldr (fun r keys => insert_key (city r) keys) [] df.

(** The values of one column within the group of city [k]. *)
Definition group_values (col : StoredRow -> float) (df : list StoredRow)
    (k : string) : list float :=
  map col (List.filter (fun r => String.eqb (city r) k) df).

(** One step of the compensated sum behind a group mean, on the pair of
    the running sum and its compensation:
    [y = val - compensation; t = sumx + y;
     compensation = t - sumx - y; sumx = t],
    with a compensation that came out NaN (an infinite value) put back to
    zero. *)
Definition kahan_add (acc : float * float) (val : float) : float * float :=
  let y := (val - acc.2)%float in
  let t := (acc.1 + y)%float in
  let compensation := (t - acc.1 - y)%float in
  (t, if is_nan compensation then 0%float else compensation).

(** The compensated sum of the values in the order of the rows. *)
Definition kahan_sum (xs : list float) : float :=
  (fold_left kahan_add xs (0%float, 0%float)).1.

(** Mean of the values that are present, as the group mean computes it:
    the compensated sum over their count; NaN when none is present. *)
Definition mean (xs : list float) : float :=
  let present := List.filter (fun x => negb (is_nan x)) xs in
  match present with
  | [] => nan
  | _ =>
      (kahan_sum present
       / of_uint63 (Uint63.of_Z (Z.of_nat (length present))))%float
  end.

(** [df.groupby("city")[col].mean()]. *)
Definition groupby_mean (col : StoredRow -> float) (df : list StoredRow)
  : Series :=
  map (fun k => (k, mean (group_values col df k))) (group_keys df).

(** [Series.dropna()]. *)
Definition dropna (s : Series) : Series :=
  List.filter (fun kv => negb (is_nan kv.2)) s.

(** The scan behind [idxmax]: the best entry so far is replaced only by a
    strictly greater one, so the first maximum is kept. *)
Fixpoint idxmax_from (best : string * float) (rest : Series)
  : string * float :=
  match rest with
  | [] => best
  | kv :: rest' =>
      if (best.2 <? kv.2)%float then idxmax_from kv rest'
      else idxmax_from best rest'
  end.

(** [Series.idxmax()] and [Series.max()] on a series without NaN; an empty
    series raises [ValueError]. *)
Definition idxmax (s : Series) : result string :=
  match s with
  | [] => Raise ValueError
  | kv :: rest => Ok (idxmax_from kv rest).1
  end.

Definition max (s : Series) : result float :=
  match s with
  | [] => Raise ValueError
  | kv :: rest =>
      Ok (fold_left (fun m kv' => if (m <? kv'.2)%float then kv'.2 else m)
                    rest kv.2)
  end.

(** The two city entries of the KPI summary for one column: the city with
    the highest mean and that mean, or [None] twice when no city has a
    mean.  The frame built from no row at all has no column, and
    [df.groupby("city")] raises [KeyError] on it. *)
Definition city_highest (col : StoredRow -> float) (df : list StoredRow)
  : result (option string * option float) :=
  match df with
  | [] => Raise KeyError
  | _ =>
      let by_city := dropna (groupby_mean col df) in
      match by_city with
      | [] => mret (None, None)
      | _ =>
          c ← idxmax by_city;
          m ← max by_city;
          mret (Some c, Some m)
      end
  end.

(** The city part of [compute_kpis]. *)
Record CityKpis : Type := mkCityKpis {
  city_highest_avg_pm2_5 : option string;
  highest_avg_pm2_5_value : option float;
  city_highest_severity : option string;
  highest_severity_value : option float
}.

Definition compute_kpis (df : list StoredRow) : result CityKpis :=
  pm ← city_highest pm2_5 df;
  sev ← city_highest severity_score df;
  mret (mkCityKpis pm.1 pm.2 sev.1 sev.2).

(** *** Vocabulary of the properties *)

(** Ascending order of city names. *)
Definition name_lt (a b : string) : Prop := String.compare a b = Lt.

(** A series whose index is in strictly ascending name order. *)
Definition index_sorted (s : Series) : Prop :=
  StronglySorted (fun a b => name_lt a.1 b.1) s.

(** [c] is the first city, in ascending name order, among the cities
    whose mean of [col] is the highest: its mean [m] is not exceeded, and
    every city with a mean equal to [m] comes at or after [c]. *)
Definition first_city_of_highest_mean (col : StoredRow -> float)
    (df : list StoredRow) (c : string) (m : float) : Prop :=
  let by_city := dropna (groupby_mean col df) in
  (c, m) ∈ by_city /\
  (forall c' m', (c', m') ∈ by_city -> (m' <=? m)%float = true) /\
  (forall c' m', (c', m') ∈ by_city -> (m' =? m)%float = true ->
                 String.leb c c' = true).

(** *** The hour with the highest mean PM2.5 *)

(** The scan behind [idxmax] for any index type. *)
Fixpoint idxmax_from_key {K : Type} (best : K * float)
    (rest : list (K * float)) : K * float :=
  match rest with
  | [] => best
  | kv :: rest' =>
      if (best.2 <? kv.2)%float then idxmax_from_key kv rest'
      else idxmax_from_key best rest'
  end.

(** Insertion of an hour into the sorted list of distinct hours. *)
Fixpoint insert_hour (h : nat) (hours : list nat) : list nat :=
  match hours with
  | [] => [h]
  | h' :: rest =>
      match Nat.compare h h' with
      | Lt => h :: hours
      | Eq => hours
      | Gt => h' :: insert_hour h rest
      end
  end.

(** [df.groupby("hour")["pm2_5"].mean()] on the rows given as (hour,
    PM2.5) pairs: the distinct hours in ascending order with the mean of
    their values. *)
Definition hour_groupby_mean (rows : list (nat * float))
  : list (nat * float) :=
  map (fun h =>
         (h, mean (map snd (List.filter (fun r => Nat.eqb r.1 h) rows))))
      (foldr (fun r hours => insert_hour r.1 hours) [] rows).

(** The hour of day with the highest mean PM2.5 and that mean, or [None]
    twice when no hour has a mean (as also when the frame has no hour
    column). *)
Definition worst_aqi_hour (rows : list (nat * float))
  : option nat * option float :=
  match List.filter (fun kv => negb (is_nan kv.2)) (hour_groupby_mean rows)
  with
  | [] => (None, None)
  | kv :: rest =>
      (Some (idxmax_from_key kv rest).1,
       Some (fold_left (fun m kv' => if (m <? kv'.2)%float then kv'.2 else m)
                       rest kv.2))
  end.

(** *** The trend table *)

(** A row of [df[["city", "time", "pm2_5", "pm10", "ozone"]]]; the time is
    the count of nanoseconds of a [datetime64] value, or [None] for NaT. *)
Record TrendRow : Type := mkTrendRow {
  t_city : string;
  t_time : option Z;
  t_pm2_5 : float;
  t_pm10 : float;
  t_ozone : float
}.

(** Ascending order of times, NaT last. *)
Definition time_leb (a b : option Z) : bool :=
  match a, b with
  | Some x, Some y => (x <=? y)%Z
  | Some _, None => true
  | None, Some _ => false
  | None, None => true
  end.

(** The order of [sort_values(["city", "time"])]: by city, then by time. *)
Definition trend_leb (a b : TrendRow) : bool :=
  match String.compare (t_city a) (t_city b) with
  | Lt => true
  | Gt => false
  | Eq => time_leb (t_time a) (t_time b)
  end.

(** Stable insertion: a row goes before the first row that is not below
    it, so rows with equal keys keep their order. *)
Fixpoint insert_row (x : TrendRow) (l : list TrendRow) : list TrendRow :=
  match l with
  | [] => [x]
  | y :: l' => if trend_leb x y then x :: l else y :: insert_row x l'
  end.

(** [pollution_trends]: the rows sorted by city, then time. *)
Definition pollution_trends (rows : list TrendRow) : list TrendRow :=
  foldr insert_row [] rows.

(** Two cities with one row each, PM2.5 50 and severity 250 in both. *)
Definition tie_rows : list StoredRow :=
  [mkStoredRow "Mumbai" 50 250; mkStoredRow "Delhi" 50 250].

(** Two cities whose means are a rounding apart: PM2.5 0.1, 0.2 and 0.3
    in three rows of one city, 0.2 in the row of the other. *)
#[warnings="-inexact-float"]
Definition close_means : list StoredRow :=
  [mkStoredRow "Agra" 0.1 1; mkStoredRow "Agra" 0.2 1;
   mkStoredRow "Agra" 0.3 1; mkStoredRow "Bhopal" 0.2 1].

End Analysis.

(** ** extract.py *)

Module Extract.

(** The configured cities with their latitude and longitude. *)
#[warnings="-inexact-float"]
Definition CITIES : list (string * (float * float)) :=
  [("Delhi", (28.7041, 77.1025)%float);
   ("Mumbai", (19.0760, 72.8777)%float);
   ("Bengaluru", (12.9716, 77.5946)%float);
   ("Hyderabad", (17.3850, 78.4867)%float);
   ("Kolkata", (22.5726, 88.3639)%float)].

(** The JSON object of a response, as far as the extractor looks at it:
    its [hourly] entry when there is a non-null one, and whether it has
    any other entry. *)
Record ApiData : Type := mkApiData {
  api_hourly : option Transform.Hourly;
  api_other_entries : bool
}.

(** [bool(data)]: the object is not empty. *)
Definition truthy (data : ApiData) : bool :=
  match api_hourly data with
  | Some _ => true
  | None => api_other_entries data
  end.

(** [not data.get("hourly")]. *)
Definition hourly_missing (data : ApiData) : bool :=
  match api_hourly data with
  | Some hourly_data => Transform.hourly_is_empty hourly_data
  | None => true
  end.

(** What the [try] body of one attempt comes to: the decoded object, or
    an exception (transport failure, error status, undecodable body). *)
Inductive reply : Type :=
| Fetched (data : ApiData)
| Failed.

Inductive message : Type :=
| MsgRequesting (city_name : string) (attempt retries : nat)
| MsgEmptyResponse (city_name : string)
| MsgSuccess (city_name : string)
| MsgAttemptError (city_name : string) (attempt : nat)
| MsgAttemptFailed (city_name : string) (attempt wait : nat)
| MsgFailed (city_name : string) (retries : nat)
| MsgStarting
| MsgSaved (city_name filename : string)
| MsgSavedFile (filename : string)
| MsgCompleted.

Inductive level : Type :=
| INFO
| WARNING
| ERROR.

(** The observable actions of an extraction, in order. *)
Inductive event : Type :=
| Request (lat lon : float) (attempt : nat)
| Sleep (seconds : nat)
| Log (l : level) (m : message)
| Print (m : message)
| WriteFile (filename : string) (data : ApiData).

Section Extractor.

(** The service: how it answers the k-th request of the run, given the
    coordinates asked for. *)
Variable get : nat -> float -> float -> reply.

(** The clock: the timestamp text of the k-th file saved in the run. *)
Variable now : nat -> string.

(** Extractor state: the requests sent, the files saved and the actions
    performed so far. *)
Record state : Type := mkState {
  requests : nat;
  saved_files : list string;
  trace : list event
}.

Definition emit (es : list event) (st : state) : state :=
  mkState (requests st) (saved_files st) (trace st ++ es).

(** The loop of [fetch_city_data] from attempt number [attempt], with
    [remaining] attempts left. *)
Fixpoint fetch_loop (city_name : string) (lat lon : float)
    (retries wait attempt remaining : nat) (st : state)
  : option ApiData * state :=
  match remaining with
  | 0 =>
      (None,
       emit [Print (MsgFailed city_name retries);
             Log ERROR (MsgFailed city_name retries)] st)
  | S remaining' =>
      let st1 :=
        mkState (S (requests st)) (saved_files st)
          (trace st ++ [Print (MsgRequesting city_name attempt retries);
                        Request lat lon attempt]) in
      match get (requests st) lat lon with
      | Fetched data =>
          let st2 :=
            if hourly_missing data
            then emit [Log WARNING (MsgEmptyResponse city_name);
                       Print (MsgEmptyResponse city_name)] st1
            else st1 in
          (Some data, emit [Log INFO (MsgSuccess city_name)] st2)
      | Failed =>
          fetch_loop city_name lat lon retries wait (S attempt) remaining'
            (emit [Log ERROR (MsgAttemptError city_name attempt);
                   Print (MsgAttemptFailed city_name attempt wait);
                   Sleep wait] st1)
      end
  end.

(** API request with retry. *)
Definition fetch_city_data (city_name : string) (lat lon : float)
    (retries wait : nat) (st : state) : option ApiData * state :=
  fetch_loop city_name lat lon retries wait 1 retries st.

(** The name of the raw file of a city at a timestamp. *)
Definition raw_filename (city_name timestamp : string) : string :=
  lower city_name ++ "_raw_" ++ timestamp ++ ".json".

(** The body of the loop of [extract_all] for one city. *)
Definition extract_city (city : string * (float * float)) (st : state)
  : state :=
  let (data, st1) := fetch_city_data city.1 city.2.1 city.2.2 3 2 st in
  match data with
  | Some data =>
      if truthy data then
        let filename :=
          raw_filename city.1 (now (length (saved_files st1))) in
        mkState (requests st1) (saved_files st1 ++ [filename])
          (trace st1 ++ [WriteFile filename data;
                         Print (MsgSaved city.1 filename);
                         Log INFO (MsgSavedFile filename)])
      else st1
  | None => st1
  end.

(** Main extraction. *)
Definition extract_all : state :=
  emit [Print MsgCompleted]
    (fold_left (fun st city => extract_city city st) CITIES
       (mkState 0 [] [Print MsgStarting])).

End Extractor.

(** The coordinates of the first attempts, in order. *)
Definition first_attempts (tr : list event) : list (float * float) :=
  omap (fun e => match e with
                 | Request lat lon 1 => Some (lat, lon)
                 | _ => None
                 end) tr.

(** The files written, in order. *)
Definition written (tr : list event) : list string :=
  omap (fun e => match e with
                 | WriteFile filename _ => Some filename
                 | _ => None
                 end) tr.

(** The seconds slept. *)
Definition slept (tr : list event) : nat :=
  sum_list (omap (fun e => match e with
                           | Sleep n => Some n
                           | _ => None
                           end) tr).

(** A name in capitalized ASCII letters: an upper-case letter followed by
    lower-case letters. *)
Definition capitalized (name : string) : bool :=
  match name with
  | EmptyString => false
  | String c rest =>
      is_upper c && forallb is_lower (String.list_ascii_of_string rest)
  end.

(** A service whose first answer fails and whose later answers carry an
    object without hourly data. *)
Definition second_request_succeeds (k : nat) (lat lon : float) : reply :=
  match k with
  | 0 => Failed
  | _ => Fetched (mkApiData None true)
  end.

End Extract.

(** * Properties *)

(** ** Order and NaN facts about binary64 values *)

Section FloatFacts.

Local Open Scope float_scope.

Lemma is_nan_Prim2SF (x : float) :
  is_nan x = true <-> Prim2SF x = S754_nan.
Proof.
  unfold is_nan. rewrite FloatAxioms.eqb_spec. unfold SFeqb.
  destruct (Prim2SF x) as [[]|[]| |[] m e]; simpl;
    rewrite ?Z.compare_refl, ?Pos.compare_cont_refl; simpl;
    split; congruence.
Qed.

Lemma is_nan_eq (x : float) : is_nan x = true -> x = nan.
Proof.
  intros H. apply Prim2SF_inj. apply is_nan_Prim2SF in H. now rewrite H.
Qed.

Lemma mul_nan_l (k : float) : nan * k = nan.
Proof. apply Prim2SF_inj. rewrite FloatAxioms.mul_spec. reflexivity. Qed.

Lemma add_nan_l (y : float) : nan + y = nan.
Proof. apply Prim2SF_inj. rewrite FloatAxioms.add_spec. reflexivity. Qed.

Lemma add_nan_r (x : float) : x + nan = nan.
Proof.
  apply Prim2SF_inj. rewrite FloatAxioms.add_spec.
  change (Prim2SF nan) with S754_nan.
  unfold SF64add, SFadd. now destruct (Prim2SF x) as [[]|[]| |[] m e].
Qed.

Lemma leb_nan_l (x k : float) : is_nan x = true -> (x <=? k) = false.
Proof.
  intros H. apply is_nan_Prim2SF in H. rewrite FloatAxioms.leb_spec, H. reflexivity.
Qed.

(** The comparison of three finite values of one sign is decided by the
    comparisons of their exponents and mantissas. *)
Ltac sf_cases :=
  simpl; try congruence;
  repeat match goal with
  | |- context [Z.compare ?x ?y] => destruct (Z.compare_spec x y); subst
  end;
  try congruence; try lia;
  rewrite ?Pos.compare_cont_spec; simpl;
  repeat match goal with
  | |- context [Pos.compare ?x ?y] => destruct (Pos.compare_spec x y); subst
  end;
  simpl; try congruence; try lia.

Lemma SFcompare_lt_trans (a b c : spec_float) :
  SFcompare a b = Some Lt -> SFcompare b c = Some Lt ->
  SFcompare a c = Some Lt.
Proof.
  destruct a as [[]|[]| |[] ma ea], b as [[]|[]| |[] mb eb],
           c as [[]|[]| |[] mc ec]; sf_cases.
Qed.

Lemma SFcompare_lt_eq_trans (a b c : spec_float) :
  SFcompare a b = Some Lt -> SFcompare b c = Some Eq ->
  SFcompare a c = Some Lt.
Proof.
  destruct a as [[]|[]| |[] ma ea], b as [[]|[]| |[] mb eb],
           c as [[]|[]| |[] mc ec]; sf_cases.
Qed.

Lemma SFcompare_eq_lt_trans (a b c : spec_float) :
  SFcompare a b = Some Eq -> SFcompare b c = Some Lt ->
  SFcompare a c = Some Lt.
Proof.
  destruct a as [[]|[]| |[] ma ea], b as [[]|[]| |[] mb eb],
           c as [[]|[]| |[] mc ec]; sf_cases.
Qed.

Lemma SFcompare_eq_trans (a b c : spec_float) :
  SFcompare a b = Some Eq -> SFcompare b c = Some Eq ->
  SFcompare a c = Some Eq.
Proof.
  destruct a as [[]|[]| |[] ma ea], b as [[]|[]| |[] mb eb],
           c as [[]|[]| |[] mc ec]; sf_cases.
Qed.

Lemma SFcompare_lt_irrefl (a : spec_float) : SFcompare a a <> Some Lt.
Proof.
  destruct a as [[]|[]| |[] ma ea]; simpl; try congruence;
    rewrite Z.compare_refl, Pos.compare_cont_refl; simpl; congruence.
Qed.

Lemma SFcompare_Gt_Lt (a b : spec_float) :
  SFcompare a b = Some Gt -> SFcompare b a = Some Lt.
Proof.
  destruct a as [[]|[]| |[] ma ea], b as [[]|[]| |[] mb eb]; sf_cases.
Qed.

Lemma SFcompare_None (a b : spec_float) :
  SFcompare a b = None -> a = S754_nan \/ b = S754_nan.
Proof.
  destruct a as [[]|[]| |[] ma ea], b as [[]|[]| |[] mb eb]; simpl;
    try discriminate; auto.
Qed.

Lemma ltb_trans (a b c : float) :
  (a <? b) = true -> (b <? c) = true -> (a <? c) = true.
Proof.
  rewrite !FloatAxioms.ltb_spec. unfold SFltb.
  pose proof (SFcompare_lt_trans (Prim2SF a) (Prim2SF b) (Prim2SF c)) as T.
  destruct (SFcompare (Prim2SF a) (Prim2SF b)) as [[]|]; try discriminate.
  destruct (SFcompare (Prim2SF b) (Prim2SF c)) as [[]|]; try discriminate.
  now rewrite T.
Qed.

Lemma ltb_leb_trans (a b c : float) :
  (a <? b) = true -> (b <=? c) = true -> (a <? c) = true.
Proof.
  rewrite !FloatAxioms.ltb_spec, FloatAxioms.leb_spec. unfold SFltb, SFleb.
  pose proof (SFcompare_lt_trans (Prim2SF a) (Prim2SF b) (Prim2SF c)) as T.
  pose proof (SFcompare_lt_eq_trans (Prim2SF a) (Prim2SF b) (Prim2SF c)) as U.
  destruct (SFcompare (Prim2SF a) (Prim2SF b)) as [[]|]; try discriminate.
  destruct (SFcompare (Prim2SF b) (Prim2SF c)) as [[]|]; try discriminate;
    intros _ _; [now rewrite U | now rewrite T].
Qed.

Lemma leb_ltb_trans (a b c : float) :
  (a <=? b) = true -> (b <? c) = true -> (a <? c) = true.
Proof.
  rewrite !FloatAxioms.ltb_spec, FloatAxioms.leb_spec. unfold SFltb, SFleb.
  pose proof (SFcompare_lt_trans (Prim2SF a) (Prim2SF b) (Prim2SF c)) as T.
  pose proof (SFcompare_eq_lt_trans (Prim2SF a) (Prim2SF b) (Prim2SF c)) as U.
  destruct (SFcompare (Prim2SF a) (Prim2SF b)) as [[]|]; try discriminate;
    (destruct (SFcompare (Prim2SF b) (Prim2SF c)) as [[]|];
     try discriminate); intros _ _; [now rewrite U | now rewrite T].
Qed.

Lemma ltb_false_leb (a b : float) :
  is_nan a = false -> is_nan b = false ->
  (a <? b) = false -> (b <=? a) = true.
Proof.
  intros Ha Hb. rewrite FloatAxioms.ltb_spec, FloatAxioms.leb_spec. unfold SFltb, SFleb.
  pose proof (SFcompare_Gt_Lt (Prim2SF a) (Prim2SF b)) as G.
  pose proof (SFcompare_None (Prim2SF a) (Prim2SF b)) as N.
  pose proof (SFcompare_eq_lt_trans (Prim2SF b) (Prim2SF a) (Prim2SF b)) as E.
  destruct (SFcompare (Prim2SF a) (Prim2SF b)) as [[]|] eqn:C;
    try discriminate; intros _.
  - destruct (SFcompare (Prim2SF b) (Prim2SF a)) as [[]|] eqn:D; auto.
    + apply SFcompare_Gt_Lt in D. congruence.
    + apply SFcompare_None in D.
      destruct D as [D|D]; apply is_nan_Prim2SF in D; congruence.
  - now rewrite G.
  - destruct N as [D|D]; auto; apply is_nan_Prim2SF in D; congruence.
Qed.

Lemma ltb_leb (a b : float) : (a <? b) = true -> (a <=? b) = true.
Proof.
  rewrite FloatAxioms.ltb_spec, FloatAxioms.leb_spec. unfold SFltb, SFleb.
  now destruct (SFcompare (Prim2SF a) (Prim2SF b)) as [[]|].
Qed.

Lemma eqb_ltb_false (a b : float) : (a =? b) = true -> (a <? b) = false.
Proof.
  rewrite FloatAxioms.eqb_spec, FloatAxioms.ltb_spec. unfold SFeqb, SFltb.
  now destruct (SFcompare (Prim2SF a) (Prim2SF b)) as [[]|].
Qed.

Lemma leb_trans (a b c : float) :
  (a <=? b) = true -> (b <=? c) = true -> (a <=? c) = true.
Proof.
  rewrite !FloatAxioms.leb_spec. unfold SFleb.
  pose proof (SFcompare_lt_trans (Prim2SF a) (Prim2SF b) (Prim2SF c)) as T.
  pose proof (SFcompare_lt_eq_trans (Prim2SF a) (Prim2SF b) (Prim2SF c)) as U.
  pose proof (SFcompare_eq_lt_trans (Prim2SF a) (Prim2SF b) (Prim2SF c)) as V.
  pose proof (SFcompare_eq_trans (Prim2SF a) (Prim2SF b) (Prim2SF c)) as W.
  destruct (SFcompare (Prim2SF a) (Prim2SF b)) as [[]|]; try discriminate;
    (destruct (SFcompare (Prim2SF b) (Prim2SF c)) as [[]|];
     try discriminate); intros _ _;
    first [now rewrite W | now rewrite V | now rewrite U | now rewrite T].
Qed.

Lemma leb_ltb_false (a b : float) : (a <=? b) = true -> (b <? a) = false.
Proof.
  rewrite FloatAxioms.leb_spec, FloatAxioms.ltb_spec. unfold SFleb, SFltb.
  pose proof (SFcompare_lt_trans (Prim2SF a) (Prim2SF b) (Prim2SF a)) as T.
  pose proof (SFcompare_eq_lt_trans (Prim2SF a) (Prim2SF b) (Prim2SF a)) as V.
  pose proof (SFcompare_lt_irrefl (Prim2SF a)) as I.
  destruct (SFcompare (Prim2SF a) (Prim2SF b)) as [[]|]; try discriminate;
    intros _; destruct (SFcompare (Prim2SF b) (Prim2SF a)) as [[]|];
    try reflexivity; exfalso; apply I; auto.
Qed.

Lemma leb_false_ltb (a b : float) :
  is_nan a = false -> is_nan b = false ->
  (a <=? b) = false -> (b <? a) = true.
Proof.
  intros Ha Hb H. destruct (b <? a) eqn:E; [reflexivity|].
  rewrite (ltb_false_leb b a Hb Ha E) in H. discriminate.
Qed.

End FloatFacts.

(** ** Transform: the derived fields *)

Import Transform.

(** C6: at the thresholds the lower tier is kept: severity 400 is
    "Moderate Risk" (not "High Risk") and 401 is "High Risk"; severity 200
    is "Low Risk" and 201 is "Moderate Risk". *)
Theorem risk_classification_boundaries :
  risk_classification 400 = "Moderate Risk" /\
  risk_classification 400 <> "High Risk" /\
  risk_classification 401 = "High Risk" /\
  risk_classification 200 = "Low Risk" /\
  risk_classification 201 = "Moderate Risk".
Proof. repeat split; try reflexivity. discriminate. Qed.

Lemma risk_classification_labels (s : float) :
  risk_classification s = "Low Risk" \/
  risk_classification s = "Moderate Risk" \/
  risk_classification s = "High Risk".
Proof.
  unfold risk_classification.
  destruct (400 <? s)%float; [auto|]. destruct (200 <? s)%float; auto.
Qed.

(** C10: the risk classification is monotone in the severity for the
    order Low < Moderate < High on the labels, and every output is one of
    these three labels. *)
Theorem risk_classification_monotone (s1 s2 : float) :
  (s1 <=? s2)%float = true ->
  (exists t1 t2 : nat,
      risk_tier (risk_classification s1) = Some t1 /\
      risk_tier (risk_classification s2) = Some t2 /\
      t1 <= t2) /\
  (forall s : float,
      risk_classification s ∈ ["Low Risk"; "Moderate Risk"; "High Risk"]).
Proof.
  intros Hle. split.
  - unfold risk_classification.
    destruct (400 <? s1)%float eqn:H1.
    + rewrite (ltb_leb_trans _ _ _ H1 Hle). exists 2, 2. auto.
    + destruct (200 <? s1)%float eqn:H2.
      * rewrite (ltb_leb_trans _ _ _ H2 Hle).
        destruct (400 <? s2)%float; [exists 1, 2 | exists 1, 1]; auto.
      * destruct (400 <? s2)%float; [exists 0, 2; simpl; auto with lia|].
        destruct (200 <? s2)%float; [exists 0, 1 | exists 0, 0]; auto.
  - intros s. destruct (risk_classification_labels s) as [-> | [-> | ->]];
      repeat first [apply list_elem_of_here | apply list_elem_of_further].
Qed.

Lemma risk_classification_monotone_witness :
  (exists t1 t2 : nat,
      risk_tier (risk_classification 150) = Some t1 /\
      risk_tier (risk_classification 450) = Some t2 /\
      t1 <= t2) /\
  (forall s : float,
      risk_classification s ∈ ["Low Risk"; "Moderate Risk"; "High Risk"]).
Proof. apply (risk_classification_monotone 150 450). reflexivity. Defined.

(** ** Transform: the stages of the pipeline *)

Lemma mapM_Ok_Forall2 {A B : Type} (f : A -> result B) (l : list A)
    (k : list B) :
  mapM f l = Ok k -> Forall2 (fun x y => f x = Ok y) l k.
Proof.
  revert k. induction l as [|a l IH]; intros k H; simpl in H.
  - injection H as <-. constructor.
  - destruct (f a) as [y|e] eqn:Ea; simpl in H; [|discriminate].
    destruct (mapM f l) as [k'|e] eqn:El; simpl in H; [|discriminate].
    injection H as <-. constructor; auto.
Qed.

(** A successful run went through each stage, and the staged table pairs
    the rows of the filtered frame with their derived values. *)
Lemma transform_pipeline_stages (files : list RawFile)
    (staged : list StagedRow) :
  transform_pipeline files = Ok staged ->
  exists records df cats sevs,
    collect_records files = Ok records /\
    dropna_all pollutant_cols (DataFrame records) = Ok df /\
    Forall2 (fun r c => aqi_pm25_category (column "pm2_5" r) = Ok c)
            df cats /\
    Forall2 (fun r s => compute_severity (cells r) = Ok s) df sevs /\
    staged = zip_with staged_row df (zip cats sevs).
Proof.
  unfold transform_pipeline. intros H.
  destruct (collect_records files) as [records|e] eqn:E1; simpl in H;
    [|discriminate].
  destruct (dropna_all pollutant_cols (DataFrame records)) as [df|e] eqn:E2;
    simpl in H; [|discriminate].
  destruct (mapM (fun r => aqi_pm25_category _) df) as [cats|e] eqn:E3;
    simpl in H; [|discriminate].
  destruct (mapM (fun r => compute_severity _) df) as [sevs|e] eqn:E4;
    simpl in H; [|discriminate].
  unfold mret, result_ret in H. injection H as <-.
  exists records, df, cats, sevs.
  repeat split; auto using mapM_Ok_Forall2.
Qed.

(** Each staged row carries the values the three functions return on its
    own cells. *)
Lemma staged_row_derived (files : list RawFile) (staged : list StagedRow)
    (row : StagedRow) :
  transform_pipeline files = Ok staged ->
  row ∈ staged ->
  aqi_pm25_category (column "pm2_5" (base row)) = Ok (AQI_Category row) /\
  compute_severity (cells (base row)) = Ok (Pollution_Severity row) /\
  Risk_Level row = risk_classification (Pollution_Severity row) /\
  hour_of_day row = Py.hour (time (base row)).
Proof.
  intros H Hin.
  destruct (transform_pipeline_stages _ _ H)
    as (records & df & cats & sevs & _ & _ & Hc & Hs & ->).
  apply list_elem_of_lookup in Hin as [i Hi].
  apply lookup_zip_with_Some in Hi as (r & [c s] & -> & Hr & Hcs).
  apply lookup_zip_with_Some in Hcs as (c' & s' & Heq & Hc' & Hs').
  injection Heq as <- <-. simpl.
  repeat split.
  - exact (Forall2_lookup_lr _ _ _ _ _ _ Hc Hr Hc').
  - exact (Forall2_lookup_lr _ _ _ _ _ _ Hs Hr Hs').
Qed.

(** ** Transform: record construction *)

(** The guard keeps the subscription in range: the cell is always
    produced. *)
Lemma pollutant_cell_Ok (hourly_data : Hourly) (i : nat) (p : string) :
  pollutant_cell hourly_data i p = Ok (cell_at hourly_data i p).
Proof.
  unfold pollutant_cell, cell_at, Py.getitem.
  destruct (arrays hourly_data !! p) as [values|]; simpl.
  - destruct (Nat.ltb_spec i (length values)) as [Hlt|Hge].
    + destruct (lookup_lt_is_Some_2 values i Hlt) as [v ->]. reflexivity.
    + rewrite (lookup_ge_None_2 values i Hge). reflexivity.
  - reflexivity.
Qed.

Lemma fill_cells_Ok (hourly_data : Hourly) (i : nat) (ps : list string)
    (rec : gmap string cell) :
  fill_cells hourly_data i ps rec =
  Ok (foldl (fun m p => <[p := cell_at hourly_data i p]> m) rec ps).
Proof.
  revert rec. induction ps as [|p ps IH]; intros rec; simpl; [reflexivity|].
  rewrite pollutant_cell_Ok. simpl. apply IH.
Qed.

Lemma make_record_Ok (c : string) (hourly_data : Hourly) (i : nat)
    (t : Timestamp) :
  make_record c hourly_data i t = Ok (mkRecord c t (built_cells hourly_data i)).
Proof. unfold make_record. rewrite fill_cells_Ok. reflexivity. Qed.

Lemma record_cells_lookup (hourly_data : Hourly) (i : nat) (p : string) :
  p ∈ pollutant_cols ->
  built_cells hourly_data i !! p = Some (cell_at hourly_data i p).
Proof.
  unfold built_cells, pollutant_cols. rewrite !elem_of_cons, elem_of_nil. simpl.
  intros [-> | [-> | [-> | [-> | [-> | [-> | [-> | []]]]]]]];
    repeat (rewrite lookup_insert_ne by discriminate);
    apply lookup_insert_eq.
Qed.

(** C9: record construction is total.  For every hourly structure, index
    and timestamp a record is built without any exception; a pollutant
    whose array is absent or too short for the index gets [None], and one
    whose array reaches the index gets the converted i-th value. *)
Theorem make_record_total (c : string) (hourly_data : Hourly) (i : nat)
    (t : Timestamp) :
  exists r : record,
    make_record c hourly_data i t = Ok r /\
    city r = c /\ time r = t /\
    forall p : string, p ∈ pollutant_cols ->
      match arrays hourly_data !! p with
      | None => cells r !! p = Some PyNone
      | Some values =>
          (length values <= i -> cells r !! p = Some PyNone) /\
          (i < length values ->
           exists v, values !! i = Some v /\
                     cells r !! p = Some (to_numeric v))
      end.
Proof.
  eexists. split; [apply make_record_Ok|]. simpl.
  repeat split. intros p Hp.
  rewrite (record_cells_lookup _ _ _ Hp). unfold cell_at.
  destruct (arrays hourly_data !! p) as [values|]; [|reflexivity].
  split.
  - intros Hge. now rewrite (lookup_ge_None_2 values i Hge).
  - intros Hlt. destruct (lookup_lt_is_Some_2 values i Hlt) as [v Hv].
    exists v. now rewrite Hv.
Qed.

(** Every file yields its records, one per entry of the time array. *)
Lemma file_records_Ok (f : RawFile) :
  exists rs : list record, file_records f = Ok rs /\
    Forall (fun r => forall p, p ∈ pollutant_cols -> is_Some (cells r !! p)) rs.
Proof.
  unfold file_records. destruct (hourly f) as [h|]; [|exists []; auto].
  destruct (hourly_is_empty h); [exists []; auto|].
  generalize (default [] (time_array h)). intros times.
  assert (G : forall (g : nat -> Timestamp -> nat * Timestamp),
    (forall i t, (g i t).2 = t) ->
    exists rs, mapM (fun it => make_record (city_name f) h it.1 it.2)
                    (imap g times) = Ok rs /\
      Forall (fun r => forall p, p ∈ pollutant_cols -> is_Some (cells r !! p)) rs).
  { induction times as [|t times IH]; intros g Hg; simpl.
    - exists []. auto.
    - rewrite make_record_Ok. simpl.
      destruct (IH (g ∘ S)) as (rs & -> & Hrs); [intros; apply Hg|].
      simpl. eexists. split; [reflexivity|]. constructor; auto.
      simpl. intros p Hp. rewrite (record_cells_lookup _ _ _ Hp). eauto. }
  apply G. reflexivity.
Qed.

(** ** Transform: the frame and the row filter *)

Lemma collect_records_Ok (files : list RawFile) :
  exists records : list record,
    collect_records files = Ok records /\ Forall has_columns records.
Proof.
  unfold collect_records.
  assert (G : exists rs, mapM file_records files = Ok rs /\
                         Forall (Forall has_columns) rs).
  { induction files as [|f files (rs & IH & Hrs)]; simpl.
    - exists []. auto.
    - destruct (file_records_Ok f) as (r & -> & Hr). simpl. rewrite IH.
      simpl. eexists. split; [reflexivity|]. constructor; auto. }
  destruct G as (rs & -> & Hrs). simpl. eexists. split; [reflexivity|].
  induction Hrs; simpl; [constructor|]. apply Forall_app. auto.
Qed.

Lemma DataFrame_has_columns (records : list record) :
  Forall has_columns records -> Forall has_columns (DataFrame records).
Proof.
  unfold DataFrame. generalize records at 1 3. intros all H.
  induction H as [|r rs Hr _ IH]; simpl; constructor; auto.
  intros p Hp. simpl. rewrite map_lookup_imap.
  destruct (Hr p Hp) as [c ->]. simpl. eauto.
Qed.

Lemma dropna_all_Ok (subset : list string) (df kept : list record) :
  dropna_all subset df = Ok kept ->
  kept = List.filter (fun r => negb (all_missing subset r)) df.
Proof. destruct df; simpl; [discriminate|]. now intros [= <-]. Qed.

Lemma base_staged_rows (df : list record) (cats : list string)
    (sevs : list float) :
  length cats = length df -> length sevs = length df ->
  map base (zip_with staged_row df (zip cats sevs)) = df.
Proof.
  revert cats sevs.
  induction df as [|r df IH]; intros [|c cats] [|s sevs]; simpl;
    try discriminate; auto.
  intros [= Hc] [= Hs]. f_equal. auto.
Qed.

(** The rows under the staged table are the rows the filter keeps. *)
Lemma staged_rows_filter (files : list RawFile) (staged : list StagedRow) :
  transform_pipeline files = Ok staged ->
  exists records : list record,
    collect_records files = Ok records /\
    Forall has_columns records /\
    map base staged =
    List.filter (fun r => negb (all_missing pollutant_cols r))
                (DataFrame records).
Proof.
  intros H.
  destruct (transform_pipeline_stages _ _ H)
    as (records & df & cats & sevs & Hr & Hd & Hc & Hs & ->).
  exists records. split; [exact Hr|]. split.
  - destruct (collect_records_Ok files) as (records' & Hr' & Hcols).
    congruence.
  - rewrite base_staged_rows.
    + now apply dropna_all_Ok.
    + symmetry. exact (Forall2_length _ _ _ Hc).
    + symmetry. exact (Forall2_length _ _ _ Hs).
Qed.

Lemma staged_has_columns (files : list RawFile) (staged : list StagedRow)
    (row : StagedRow) :
  transform_pipeline files = Ok staged -> row ∈ staged ->
  has_columns (base row).
Proof.
  intros H Hin.
  destruct (staged_rows_filter _ _ H) as (records & _ & Hcols & Heq).
  apply DataFrame_has_columns in Hcols.
  assert (Hb : base row ∈ map base staged) by now apply list_elem_of_fmap_2.
  rewrite Heq in Hb. apply list_elem_of_In, filter_In in Hb as [Hb _].
  rewrite Forall_forall in Hcols. apply Hcols. now apply list_elem_of_In.
Qed.

Lemma all_missing_spec (subset : list string) (r : record) :
  all_missing subset r = true <->
  forall p : string, p ∈ subset -> isna (column p r) = true.
Proof.
  unfold all_missing. rewrite forallb_forall.
  split; intros H p Hp; apply H; now apply list_elem_of_In.
Qed.

Lemma all_missing_false (subset : list string) (r : record) :
  all_missing subset r = false <->
  exists p : string, p ∈ subset /\ isna (column p r) = false.
Proof.
  unfold all_missing. induction subset as [|q subset IH]; simpl.
  - split; [discriminate|]. intros (p & Hp & _). now apply elem_of_nil in Hp.
  - rewrite andb_false_iff, IH. split.
    + intros [Hq | (p & Hp & Hv)].
      * exists q. split; [left | exact Hq].
      * exists p. split; [now right | exact Hv].
    + intros (p & Hp & Hv). apply elem_of_cons in Hp as [-> | Hp]; eauto.
Qed.

(** ** Transform: missing values in the derived fields *)

(** Membership in a list given by its elements. *)
Ltac elem_of_list :=
  repeat first [apply list_elem_of_here | apply list_elem_of_further].

Lemma WEIGHTED_pollutant_cols (p : string) : p ∈ WEIGHTED -> p ∈ pollutant_cols.
Proof.
  unfold WEIGHTED. rewrite !elem_of_cons, elem_of_nil.
  intros [-> | [-> | [-> | [-> | [-> | [-> | []]]]]]];
    unfold pollutant_cols; elem_of_list.
Qed.

Lemma row_get_present (row : gmap string cell) (key : string) (c d : cell) :
  row !! key = Some c -> row_get row key d = c.
Proof. unfold row_get. now intros ->. Qed.

Lemma column_present (r : record) (key : string) (c : cell) :
  cells r !! key = Some c -> column key r = c.
Proof. unfold column. now intros ->. Qed.

(** On a row that has the six columns the default of [row.get] is never
    used, and a missing cell makes the sum NaN or the product fail. *)
Lemma compute_severity_missing (row : gmap string cell) (key : string)
    (c : cell) (s : float) :
  (forall p, p ∈ WEIGHTED -> is_Some (row !! p)) ->
  key ∈ WEIGHTED -> row !! key = Some c -> isna c = true ->
  compute_severity row = Ok s -> s = nan.
Proof.
  intros Hcols Hkey Hc Hna. unfold compute_severity.
  destruct (Hcols "pm2_5") as [c1 H1]; [unfold WEIGHTED; elem_of_list|].
  destruct (Hcols "pm10") as [c2 H2]; [unfold WEIGHTED; elem_of_list|].
  destruct (Hcols "nitrogen_dioxide") as [c3 H3];
    [unfold WEIGHTED; elem_of_list|].
  destruct (Hcols "sulphur_dioxide") as [c4 H4];
    [unfold WEIGHTED; elem_of_list|].
  destruct (Hcols "carbon_monoxide") as [c5 H5];
    [unfold WEIGHTED; elem_of_list|].
  destruct (Hcols "ozone") as [c6 H6]; [unfold WEIGHTED; elem_of_list|].
  rewrite (row_get_present _ _ _ _ H1), (row_get_present _ _ _ _ H2),
    (row_get_present _ _ _ _ H3), (row_get_present _ _ _ _ H4),
    (row_get_present _ _ _ _ H5), (row_get_present _ _ _ _ H6).
  destruct c1 as [|x1]; [discriminate|]. destruct c2 as [|x2]; [discriminate|].
  destruct c3 as [|x3]; [discriminate|]. destruct c4 as [|x4]; [discriminate|].
  destruct c5 as [|x5]; [discriminate|]. destruct c6 as [|x6]; [discriminate|].
  simpl. unfold mret, result_ret. intros [= <-].
  unfold WEIGHTED in Hkey. rewrite !elem_of_cons, elem_of_nil in Hkey.
  destruct Hkey as [-> | [-> | [-> | [-> | [-> | [-> | []]]]]]];
    [ rewrite Hc in H1; injection H1 as Heq
    | rewrite Hc in H2; injection H2 as Heq
    | rewrite Hc in H3; injection H3 as Heq
    | rewrite Hc in H4; injection H4 as Heq
    | rewrite Hc in H5; injection H5 as Heq
    | rewrite Hc in H6; injection H6 as Heq ];
    subst c; simpl in Hna; apply is_nan_eq in Hna; subst;
    now rewrite mul_nan_l, ?add_nan_l, ?add_nan_r, ?add_nan_l.
Qed.

(** C1 (the code departs from the claim): in every staged table, a row in
    which one of the six weighted pollutants is missing has a NaN
    severity, not the weighted sum with that pollutant counted as 0; its
    risk label is "Low Risk". *)
Theorem severity_of_missing_pollutant (files : list RawFile)
    (staged : list StagedRow) (row : StagedRow) (key : string) :
  transform_pipeline files = Ok staged -> row ∈ staged ->
  key ∈ WEIGHTED -> isna (column key (base row)) = true ->
  Pollution_Severity row = nan /\ Risk_Level row = "Low Risk".
Proof.
  intros H Hin Hkey Hna.
  destruct (staged_row_derived _ _ _ H Hin) as (_ & Hs & Hr & _).
  pose proof (staged_has_columns _ _ _ H Hin) as Hcols.
  destruct (Hcols key (WEIGHTED_pollutant_cols _ Hkey)) as [c Hc].
  rewrite (column_present _ _ _ Hc) in Hna.
  assert (E : Pollution_Severity row = nan).
  { apply (compute_severity_missing (cells (base row)) key c); auto.
    intros p Hp. apply Hcols. now apply WEIGHTED_pollutant_cols. }
  split; [exact E|]. rewrite Hr, E. reflexivity.
Qed.

Lemma severity_of_missing_pollutant_witness :
  exists row : StagedRow,
    rows_of (transform_pipeline [uv_only]) = [row] /\
    Pollution_Severity row = nan /\ Risk_Level row = "Low Risk".
Proof.
  destruct (rows_of (transform_pipeline [uv_only])) as [|row rest] eqn:E;
    [vm_compute in E; discriminate|].
  assert (Hrest : rest = []) by (vm_compute in E; now injection E).
  subst rest. exists row. split; [reflexivity|].
  apply (severity_of_missing_pollutant [uv_only] [row] row "pm2_5").
  - destruct (transform_pipeline [uv_only]) as [rows|e] eqn:T;
      [simpl in E; now subst rows | discriminate E].
  - apply list_elem_of_here.
  - unfold WEIGHTED. apply list_elem_of_here.
  - vm_compute in E. injection E as <-. reflexivity.
Defined.

(** C2 (as the claim states it, refuted): a retained row whose PM2.5 is
    null is not given the category of 0. *)
Lemma null_pm25_category_counterexample :
  exists row : StagedRow,
    rows_of (transform_pipeline [pm10_only]) = [row] /\
    isna (column "pm2_5" (base row)) = true /\
    aqi_pm25_category (PyFloat 0) = Ok "Good" /\
    AQI_Category row <> "Good".
Proof.
  eexists. split; [vm_compute; reflexivity|].
  split; [reflexivity|]. split; [reflexivity|]. discriminate.
Qed.

Lemma aqi_pm25_category_missing (c : cell) (label : string) :
  isna c = true -> aqi_pm25_category c = Ok label -> label = "Hazardous".
Proof.
  destruct c as [|x]; simpl; intros Hna; [discriminate|].
  unfold aqi_pm25_category. simpl. rewrite !(leb_nan_l x _ Hna). simpl.
  unfold mret, result_ret. congruence.
Qed.

(** C2 (amended): the category function has no branch for a missing
    PM2.5.  On NaN every threshold comparison is false and the result is
    "Hazardous"; on [None] the comparison raises [TypeError].  Hence in
    every staged table a row whose PM2.5 is null has the category
    "Hazardous". *)
Theorem null_pm25_category (files : list RawFile) (staged : list StagedRow)
    (row : StagedRow) :
  transform_pipeline files = Ok staged -> row ∈ staged ->
  isna (column "pm2_5" (base row)) = true ->
  AQI_Category row = "Hazardous" /\
  aqi_pm25_category (PyFloat nan) = Ok "Hazardous" /\
  aqi_pm25_category PyNone = Raise TypeError.
Proof.
  intros H Hin Hna.
  destruct (staged_row_derived _ _ _ H Hin) as (Hc & _).
  split; [|split; reflexivity].
  exact (aqi_pm25_category_missing _ _ Hna Hc).
Qed.

Lemma null_pm25_category_witness :
  exists row : StagedRow,
    rows_of (transform_pipeline [pm10_only]) = [row] /\
    AQI_Category row = "Hazardous" /\
    aqi_pm25_category (PyFloat nan) = Ok "Hazardous" /\
    aqi_pm25_category PyNone = Raise TypeError.
Proof.
  destruct (rows_of (transform_pipeline [pm10_only])) as [|row rest] eqn:E;
    [vm_compute in E; discriminate|].
  assert (Hrest : rest = []) by (vm_compute in E; now injection E).
  subst rest. exists row. split; [reflexivity|].
  apply (null_pm25_category [pm10_only] [row] row).
  - destruct (transform_pipeline [pm10_only]) as [rows|e] eqn:T;
      [simpl in E; now subst rows | discriminate E].
  - apply list_elem_of_here.
  - vm_compute in E. injection E as <-. reflexivity.
Defined.

(** C3 (as the claim states it, refuted): on the two-hour input the
    transform does not produce the categories, severities and risks the
    scenario lists. *)
Lemma two_hours_scenario_counterexample :
  ~ exists rows : list StagedRow,
      transform_pipeline [two_hours] = Ok rows /\
      length rows = 2 /\
      map AQI_Category rows = ["Good"; "Moderate"] /\
      map Pollution_Severity rows = [200; 600]%float /\
      map Risk_Level rows = ["Low Risk"; "High Risk"] /\
      map hour_of_day rows = [0; 1].
Proof.
  intros (rows & H & _ & Hc & _).
  vm_compute in H. injection H as <-. discriminate Hc.
Qed.

(** C3 (amended): on the two-hour input with PM2.5 40 and 120 and every
    other pollutant array holding nulls, the transform produces exactly
    two rows, with categories "Good" and "Unhealthy" and hours 0 and 1. *)
Theorem two_hours_scenario :
  exists rows : list StagedRow,
    transform_pipeline [two_hours] = Ok rows /\
    length rows = 2 /\
    map AQI_Category rows = ["Good"; "Unhealthy"] /\
    map hour_of_day rows = [0; 1].
Proof.
  eexists. split; [vm_compute; reflexivity|]. repeat split.
Qed.

(** When the other arrays are absent instead, their columns hold [None]
    and the run stops with a [TypeError]. *)
Lemma two_hours_pm25_alone_raises :
  transform_pipeline [two_hours_pm25_alone] = Raise TypeError.
Proof. vm_compute. reflexivity. Qed.

(** The severities and risks of the two-hour run. *)
Lemma two_hours_severities :
  map Pollution_Severity (rows_of (transform_pipeline [two_hours]))
  = [nan; nan] /\
  map Risk_Level (rows_of (transform_pipeline [two_hours]))
  = ["Low Risk"; "Low Risk"].
Proof. split; vm_compute; reflexivity. Qed.

(** C5 (the code departs from the claim): rows that hold a pollutant
    value are not always in the staged output.  On the two-hour input
    whose only pollutant array is PM2.5, the frame has two rows with PM2.5
    40 and 120 and the row filter keeps both, yet the transform raises
    [TypeError] at the severity of the first of them ([None * 3] for the
    PM10 column) and stages nothing. *)
Theorem rows_with_values_not_staged :
  exists records : list record,
    collect_records [two_hours_pm25_alone] = Ok records /\
    map (column "pm2_5") (DataFrame records) =
      [PyFloat 40; PyFloat 120] /\
    dropna_all pollutant_cols (DataFrame records) = Ok (DataFrame records) /\
    transform_pipeline [two_hours_pm25_alone] = Raise TypeError /\
    rows_of (transform_pipeline [two_hours_pm25_alone]) = [].
Proof.
  eexists. split; [vm_compute; reflexivity|].
  repeat split; vm_compute; reflexivity.
Qed.

(** ** Load: batching *)

Import Load.
Local Open Scope list_scope.

Lemma ceil_div_0 (b : nat) : ceil_div 0 b = 0.
Proof.
  unfold ceil_div. destruct b as [|b]; [reflexivity|].
  apply Nat.div_small. lia.
Qed.

Lemma ceil_div_step (n b : nat) :
  0 < b -> 0 < n -> ceil_div n b = S (ceil_div (n - b) b).
Proof.
  intros Hb Hn. unfold ceil_div.
  destruct (Nat.le_gt_cases b n) as [Hle|Hlt].
  - replace (n + b - 1) with ((n - b + b - 1) + 1 * b) by lia.
    rewrite Nat.div_add by lia. lia.
  - replace (n - b) with 0 by lia. simpl.
    rewrite (Nat.div_small (b - 1) b) by lia.
    replace (n + b - 1) with ((n - 1) + 1 * b) by lia.
    rewrite Nat.div_add by lia. rewrite Nat.div_small by lia. reflexivity.
Qed.

(** The ceiling is the least number of blocks of [b] that cover [n]. *)
Lemma ceil_div_spec (n b : nat) :
  0 < b -> n <= ceil_div n b * b /\ ceil_div n b * b < n + b.
Proof.
  intros Hb. unfold ceil_div.
  pose proof (Nat.div_mod_eq (n + b - 1) b) as E.
  pose proof (Nat.mod_upper_bound (n + b - 1) b) as U.
  split; nia.
Qed.

Lemma range_from_length (fuel i stop step : nat) :
  0 < step -> stop - i <= fuel ->
  length (range_from fuel i stop step) = ceil_div (stop - i) step.
Proof.
  intros Hs. revert i.
  induction fuel as [|fuel IH]; intros i Hf; simpl.
  - replace (stop - i) with 0 by lia. now rewrite ceil_div_0.
  - destruct (Nat.ltb_spec i stop) as [Hlt|Hge]; simpl.
    + rewrite IH by lia. rewrite (ceil_div_step (stop - i) step) by lia.
      do 2 f_equal. lia.
    + replace (stop - i) with 0 by lia. now rewrite ceil_div_0.
Qed.

Lemma slice_length {A : Type} (l : list A) (i b : nat) :
  length (slice l i (i + b)) <= b.
Proof. unfold slice. rewrite length_take. lia. Qed.

Lemma range_from_slices {A : Type} (l : list A) (fuel i b : nat) :
  0 < b -> length l - i <= fuel ->
  concat (map (fun j => slice l j (j + b)) (range_from fuel i (length l) b))
  = drop i l.
Proof.
  intros Hb. revert i.
  induction fuel as [|fuel IH]; intros i Hf; simpl.
  - symmetry. apply drop_ge. lia.
  - destruct (Nat.ltb_spec i (length l)) as [Hlt|Hge]; simpl.
    + rewrite IH by lia. unfold slice.
      replace (i + b - i) with b by lia.
      rewrite <- drop_drop. apply take_drop.
    + symmetry. apply drop_ge. lia.
Qed.

(** ** Load: the insert loop *)

Section LoaderFacts.

Context {A : Type}.
Variable execute : nat -> list A -> response.

Lemma inserted_app (tr1 tr2 : list (event A)) :
  inserted (tr1 ++ tr2) = inserted tr1 ++ inserted tr2.
Proof. unfold inserted. apply omap_app. Qed.

Lemma load_batch_inserted (batch_size i : nat) (batch : list A)
    (st : state) :
  inserted (trace (load_batch execute batch_size i batch st)) =
  inserted (trace st) ++ attempts execute (requests st) batch.
Proof.
  unfold load_batch, attempts, insert, emit. simpl.
  destruct (execute (requests st) batch); simpl;
    [| destruct (execute (S (requests st)) batch); simpl |];
    rewrite ?inserted_app; simpl; rewrite <- ?app_assoc; reflexivity.
Qed.

(** Whatever the store answers, the loop sends every batch, in order, once
    or twice. *)
Lemma load_loop_inserted (batch_size : nat) (bs : list (nat * list A))
    (st : state) :
  exists sent : list (list (list A)),
    Forall2 (fun b ks => ks = [b.2] \/ ks = [b.2; b.2]) bs sent /\
    inserted (trace (load_loop execute batch_size bs st)) =
    inserted (trace st) ++ concat sent.
Proof.
  revert st. induction bs as [|b bs IH]; intros st; simpl.
  - exists []. split; [constructor | now rewrite app_nil_r].
  - destruct (IH (load_batch execute batch_size b.1 b.2 st))
      as (sent & Hsent & Heq).
    exists (attempts execute (requests st) b.2 :: sent). split.
    + constructor; [|exact Hsent]. unfold attempts.
      destruct (execute (requests st) b.2); auto.
    + unfold load_loop in Heq |- *. simpl. rewrite Heq, load_batch_inserted.
      now rewrite <- app_assoc.
Qed.

End LoaderFacts.

Lemma load_loop_accepting {A : Type} (batch_size : nat)
    (bs : list (nat * list A)) (st : state) :
  inserted (trace (load_loop (fun _ _ => Inserted) batch_size bs st)) =
  inserted (trace st) ++ map snd bs.
Proof.
  revert st. induction bs as [|b bs IH]; intros st; simpl.
  - now rewrite app_nil_r.
  - unfold load_loop in IH |- *. simpl. rewrite IH, load_batch_inserted.
    unfold attempts. now rewrite <- app_assoc.
Qed.

(** C7: for a positive batch size the loader splits the rows into
    ceil(N/B) batches of at most B rows each, whose concatenation in loop
    order is the input sequence; these are the batches a load sends, in
    that order. *)
Theorem batches_partition {A : Type} (records : list A) (batch_size : nat) :
  0 < batch_size ->
  exists bs : list (nat * list A),
    batches records batch_size = Ok bs /\
    length bs = ceil_div (length records) batch_size /\
    Forall (fun b => length b.2 <= batch_size) bs /\
    concat (map snd bs) = records /\
    exists st : state,
      load_to_supabase (fun _ _ => Inserted) records batch_size = Ok st /\
      inserted (trace st) = map snd bs.
Proof.
  intros Hb. unfold load_to_supabase, batches, range.
  destruct (Nat.eqb_spec batch_size 0) as [->|_]; [lia|]. simpl.
  eexists. split; [reflexivity|]. split; [|split; [|split]].
  - rewrite length_map, range_from_length by lia. f_equal. lia.
  - apply Forall_map. apply Forall_forall. intros i _. simpl.
    apply slice_length.
  - rewrite map_map. simpl.
    rewrite range_from_slices by lia. apply drop_0.
  - eexists. split; [reflexivity|].
    unfold emit. simpl. rewrite inserted_app, load_loop_accepting.
    simpl. now rewrite app_nil_r.
Qed.

Lemma batches_partition_witness :
  exists bs : list (nat * list nat),
    batches [1; 2; 3; 4; 5] 2 = Ok bs /\
    length bs = ceil_div (length [1; 2; 3; 4; 5]) 2 /\
    Forall (fun b => length b.2 <= 2) bs /\
    concat (map snd bs) = [1; 2; 3; 4; 5] /\
    exists st : state,
      load_to_supabase (fun _ _ => Inserted) [1; 2; 3; 4; 5] 2 = Ok st /\
      inserted (trace st) = map snd bs.
Proof. apply (batches_partition [1; 2; 3; 4; 5] 2). lia. Defined.

(** C4 (the code departs from the claim): when the first insert of a batch
    raises, the loop body sends no second request for it and does not
    wait; it prints the retry-failure message and goes on. *)
Theorem load_batch_first_attempt_raises {A : Type}
    (execute : nat -> list A -> response) (batch_size i : nat)
    (batch : list A) (st : state) :
  execute (requests st) batch = Raised ->
  load_batch execute batch_size i batch st =
  mkState (S (requests st))
          (trace st ++ [Insert batch; Print MsgRetryFailed]).
Proof.
  intros H. unfold load_batch, insert, emit. rewrite H. simpl.
  now rewrite <- app_assoc.
Qed.

Lemma load_batch_first_attempt_raises_witness :
  load_batch first_request_raises 2 0 [1; 2] (mkState 0 []) =
  mkState 1 [Insert [1; 2]; Print MsgRetryFailed].
Proof.
  apply (load_batch_first_attempt_raises first_request_raises 2 0 [1; 2]
           (mkState 0 [])).
  reflexivity.
Defined.

(** The whole load on five rows in batches of two with that store: the
    first batch is sent once, and the two later batches are still sent. *)
Lemma load_first_request_raises :
  load_to_supabase first_request_raises [1; 2; 3; 4; 5] 2 =
  Ok (mkState 3
        [Print (MsgLoading 5 2);
         Insert [1; 2]; Print MsgRetryFailed;
         Insert [3; 4]; Print (MsgInsertedBatch 2);
         Insert [5]; Print (MsgInsertedBatch 3);
         Print MsgLoadComplete]).
Proof. reflexivity. Qed.

(** ** Analysis: the city with the highest mean *)

Import Analysis.

Lemma string_compare_lt_trans (a b c : string) :
  name_lt a b -> name_lt b c -> name_lt a c.
Proof.
  unfold name_lt. revert b c.
  induction a as [|x a IH]; intros [|y b] [|z c]; simpl;
    try discriminate; auto.
  unfold Ascii.compare.
  destruct (N.compare_spec (Ascii.N_of_ascii x) (Ascii.N_of_ascii y)) as [E1|L1|G1];
    try discriminate;
    destruct (N.compare_spec (Ascii.N_of_ascii y) (Ascii.N_of_ascii z)) as [E2|L2|G2];
    try discriminate; intros H1 H2;
    destruct (N.compare_spec (Ascii.N_of_ascii x) (Ascii.N_of_ascii z)) as [E3|L3|G3];
    try reflexivity; try lia.
  now apply (IH b c).
Qed.

Lemma string_compare_refl (a : string) : String.compare a a = Eq.
Proof.
  induction a as [|x a IH]; simpl; [reflexivity|].
  unfold Ascii.compare. now rewrite N.compare_refl.
Qed.

Section SeriesOrder.

Lemma insert_key_Forall (x k : string) (keys : list string) :
  name_lt x k -> Forall (name_lt x) keys ->
  Forall (name_lt x) (insert_key k keys).
Proof.
  intros Hk H. induction H as [|k' keys Hk' Hkeys IH]; simpl.
  - repeat constructor. exact Hk.
  - destruct (String.compare k k'); repeat constructor; auto.
Qed.

Lemma insert_key_sorted (k : string) (keys : list string) :
  StronglySorted name_lt keys -> StronglySorted name_lt (insert_key k keys).
Proof.
  induction 1 as [|k' keys Hs IH Hall]; simpl.
  - repeat constructor.
  - destruct (String.compare k k') eqn:E.
    + now constructor.
    + constructor; [now constructor|]. constructor; [exact E|].
      eapply List.Forall_impl; [|exact Hall]. intros z Hz.
      now apply (string_compare_lt_trans k k' z).
    + constructor; [exact IH|]. apply insert_key_Forall; [|exact Hall].
      unfold name_lt. rewrite String.compare_antisym, E. reflexivity.
Qed.

Lemma group_keys_sorted (df : list StoredRow) :
  StronglySorted name_lt (group_keys df).
Proof.
  unfold group_keys. induction df as [|r df IH]; simpl.
  - constructor.
  - now apply insert_key_sorted.
Qed.

Lemma groupby_mean_sorted (col : StoredRow -> float) (df : list StoredRow) :
  index_sorted (groupby_mean col df).
Proof.
  unfold groupby_mean, index_sorted.
  induction (group_keys_sorted df) as [|k keys Hs IH Hall]; simpl.
  - constructor.
  - constructor; [exact IH|]. apply Forall_map.
    eapply List.Forall_impl; [|exact Hall]. auto.
Qed.

Lemma dropna_sorted (s : Series) : index_sorted s -> index_sorted (dropna s).
Proof.
  unfold dropna, index_sorted.
  induction 1 as [|kv s Hs IH Hall]; simpl; [constructor|].
  destruct (negb (is_nan kv.2)); [|exact IH].
  constructor; [exact IH|]. rewrite List.Forall_forall in Hall |- *.
  intros x Hx. apply Hall. apply filter_In in Hx. tauto.
Qed.

Lemma dropna_no_nan (s : Series) :
  Forall (fun kv => is_nan kv.2 = false) (dropna s).
Proof.
  unfold dropna. apply List.Forall_forall. intros kv Hkv.
  apply filter_In in Hkv as [_ H].
  now apply negb_true_iff in H.
Qed.

(** The scan keeps the first entry of the greatest value: what stands
    before it is strictly smaller, what stands after it is not greater. *)
Lemma idxmax_from_split (rest pre mid : Series) (best : string * float) :
  is_nan best.2 = false ->
  Forall (fun kv => is_nan kv.2 = false) rest ->
  Forall (fun kv => (kv.2 <? best.2)%float = true) pre ->
  Forall (fun kv => (kv.2 <=? best.2)%float = true) mid ->
  exists pre' post : Series,
    pre ++ best :: mid ++ rest = pre' ++ idxmax_from best rest :: post /\
    Forall (fun kv => (kv.2 <? (idxmax_from best rest).2)%float = true) pre' /\
    Forall (fun kv => (kv.2 <=? (idxmax_from best rest).2)%float = true) post.
Proof.
  revert pre mid best.
  induction rest as [|kv rest IH]; intros pre mid best Hb Hrest Hpre Hmid;
    simpl.
  - exists pre, mid. now rewrite app_nil_r.
  - apply Forall_cons in Hrest as [Hkv Hrest].
    destruct (best.2 <? kv.2)%float eqn:E.
    + destruct (IH (pre ++ best :: mid) [] kv Hkv Hrest)
        as (pre' & post & Heq & H1 & H2).
      * apply Forall_app. split; [|constructor; [exact E|]].
        -- eapply List.Forall_impl; [|exact Hpre]. simpl. intros x Hx.
           now apply (ltb_trans _ best.2).
        -- eapply List.Forall_impl; [|exact Hmid]. simpl. intros x Hx.
           now apply (leb_ltb_trans _ best.2).
      * constructor.
      * exists pre', post. split; [|auto]. rewrite <- Heq. simpl.
        now rewrite <- app_assoc.
    + destruct (IH pre (mid ++ [kv]) best Hb Hrest Hpre)
        as (pre' & post & Heq & H1 & H2).
      * apply Forall_app. split; [exact Hmid|]. constructor; [|constructor].
        now apply ltb_false_leb.
      * exists pre', post. split; [|auto]. rewrite <- Heq.
        now rewrite <- app_assoc.
Qed.

Lemma max_idxmax_from (rest : Series) (best : string * float) :
  fold_left (fun m kv' => if (m <? kv'.2)%float then kv'.2 else m)
            rest best.2
  = (idxmax_from best rest).2.
Proof.
  revert best. induction rest as [|kv rest IH]; intros best; simpl;
    [reflexivity|].
  destruct (best.2 <? kv.2)%float; apply IH.
Qed.

Lemma sorted_split_after (pre post : Series) (kv x : string * float) :
  index_sorted (pre ++ kv :: post) -> x ∈ post -> name_lt kv.1 x.1.
Proof.
  unfold index_sorted. induction pre as [|y pre IH]; simpl; intros H Hx.
  - apply StronglySorted_inv in H as [_ H]. rewrite List.Forall_forall in H.
    apply H. now apply list_elem_of_In.
  - apply StronglySorted_inv in H as [H _]. auto.
Qed.

End SeriesOrder.

Lemma city_highest_rows (col : StoredRow -> float) (df : list StoredRow) :
  df <> [] ->
  city_highest col df =
    match dropna (groupby_mean col df) with
    | [] => Ok (None, None)
    | kv :: rest =>
        c ← idxmax (kv :: rest); m ← max (kv :: rest); mret (Some c, Some m)
    end.
Proof.
  intros Hne. destruct df as [|r df]; [congruence|].
  unfold city_highest.
  now destruct (dropna (groupby_mean col (r :: df))).
Qed.

Lemma city_highest_spec (col : StoredRow -> float) (df : list StoredRow) :
  df <> [] ->
  (dropna (groupby_mean col df) = [] /\
   city_highest col df = Ok (None, None)) \/
  (exists c m, city_highest col df = Ok (Some c, Some m) /\
               first_city_of_highest_mean col df c m).
Proof.
  intros Hne. rewrite (city_highest_rows col df Hne).
  unfold first_city_of_highest_mean.
  pose proof (dropna_sorted _ (groupby_mean_sorted col df)) as Hs.
  pose proof (dropna_no_nan (groupby_mean col df)) as Hn.
  destruct (dropna (groupby_mean col df)) as [|kv rest]; [left; auto|].
  right. apply Forall_cons in Hn as [Hkv Hrest].
  destruct (idxmax_from_split rest [] [] kv Hkv Hrest)
    as (pre & post & Heq & Hpre & Hpost); [constructor..|].
  simpl in Heq. simpl. rewrite max_idxmax_from.
  destruct (idxmax_from kv rest) as [c m] eqn:Ei. simpl in *.
  exists c, m. split; [reflexivity|]. rewrite Heq in Hs |- *.
  rewrite List.Forall_forall in Hpre, Hpost.
  assert (Hmm : (m <=? m)%float = true).
  { assert (Hin : (c, m) ∈ kv :: rest).
    { rewrite Heq. apply elem_of_app. right. left. }
    assert (Hm : is_nan m = false).
    { apply elem_of_cons in Hin as [<- | Hin]; [exact Hkv|].
      rewrite List.Forall_forall in Hrest.
      apply (Hrest (c, m)). now apply list_elem_of_In. }
    apply ltb_false_leb; auto.
    destruct (m <? m)%float eqn:E; [|reflexivity].
    unfold is_nan in Hm. apply negb_false_iff in Hm.
    now rewrite (eqb_ltb_false _ _ Hm) in E. }
  split; [|split].
  - apply elem_of_app. right. left.
  - intros c' m' Hin. apply elem_of_app in Hin as [Hin | Hin].
    + apply list_elem_of_In, Hpre in Hin. simpl in Hin.
      now apply ltb_leb.
    + apply elem_of_cons in Hin as [[= -> ->] | Hin]; [exact Hmm|].
      apply list_elem_of_In, Hpost in Hin. exact Hin.
  - intros c' m' Hin Heqb. apply elem_of_app in Hin as [Hin | Hin].
    + apply list_elem_of_In, Hpre in Hin. simpl in Hin.
      now rewrite (eqb_ltb_false _ _ Heqb) in Hin.
    + unfold String.leb.
      apply elem_of_cons in Hin as [[= -> ->] | Hin].
      * now rewrite string_compare_refl.
      * pose proof (sorted_split_after pre post (c, m) (c', m') Hs Hin) as L.
        unfold name_lt in L. simpl in L. now rewrite L.
Qed.

(** C8: on every frame with at least one row (the first row [r] and the
    rows [df] after it), the city reported for the highest mean PM2.5, and
    likewise for the highest mean severity, is the first city in ascending
    name order among the cities that share the highest mean, the means
    being the compensated group means.  In particular, for two cities with
    one row each and equal values the alphabetically first city is
    selected, whatever the order of the rows.  (The frame built from no
    row has no city column: there the summary raises [KeyError].) *)
Theorem compute_kpis_ties (r : StoredRow) (df : list StoredRow) :
  (exists k : CityKpis,
     compute_kpis (r :: df) = Ok k /\
     (forall c, city_highest_avg_pm2_5 k = Some c ->
        exists m, highest_avg_pm2_5_value k = Some m /\
                  first_city_of_highest_mean pm2_5 (r :: df) c m) /\
     (forall c, city_highest_severity k = Some c ->
        exists m, highest_severity_value k = Some m /\
                  first_city_of_highest_mean severity_score (r :: df) c m)) /\
  (exists k : CityKpis,
     compute_kpis tie_rows = Ok k /\
     city_highest_avg_pm2_5 k = Some "Delhi" /\
     city_highest_severity k = Some "Delhi") /\
  (exists k : CityKpis,
     compute_kpis (rev tie_rows) = Ok k /\
     city_highest_avg_pm2_5 k = Some "Delhi" /\
     city_highest_severity k = Some "Delhi") /\
  compute_kpis [] = Raise KeyError.
Proof.
  split; [|split; [|split; [|reflexivity]]; eexists;
           (split; [vm_compute; reflexivity|]); split; reflexivity].
  assert (Hne : r :: df <> []) by discriminate.
  unfold compute_kpis.
  destruct (city_highest_spec pm2_5 (r :: df) Hne)
    as [[_ ->] | (c1 & m1 & -> & H1)];
    destruct (city_highest_spec severity_score (r :: df) Hne)
      as [[_ ->] | (c2 & m2 & -> & H2)];
    simpl; eexists; (split; [reflexivity|]); simpl;
    split; intros c; try discriminate; intros [= <-]; eauto.
Qed.

(** * Further properties of the code *)

(** ** transform.py: the AQI category *)

Section CategoryFacts.

Local Open Scope float_scope.

(** X1: on a PM2.5 reading that is a number, the category is decided by
    the interval the reading falls in, each threshold belonging to the
    lower category: at most 50 "Good", above 50 and at most 100 "Moderate",
    above 100 and at most 200 "Unhealthy", above 200 and at most 300 "Very
    Unhealthy", above 300 "Hazardous". *)
Theorem aqi_pm25_category_intervals (x : float) :
  is_nan x = false ->
  exists label : string,
    aqi_pm25_category (PyFloat x) = Ok label /\
    (label = "Good" <-> (x <=? 50) = true) /\
    (label = "Moderate" <-> (50 <? x) = true /\ (x <=? 100) = true) /\
    (label = "Unhealthy" <-> (100 <? x) = true /\ (x <=? 200) = true) /\
    (label = "Very Unhealthy" <->
       (200 <? x) = true /\ (x <=? 300) = true) /\
    (label = "Hazardous" <-> (300 <? x) = true).
Proof.
  intros Hx. unfold aqi_pm25_category. simpl.
  assert (T1 : (x <=? 50) = true -> (x <=? 100) = true)
    by (intros H; now apply (leb_trans x 50 100)).
  assert (T2 : (x <=? 100) = true -> (x <=? 200) = true)
    by (intros H; now apply (leb_trans x 100 200)).
  assert (T3 : (x <=? 200) = true -> (x <=? 300) = true)
    by (intros H; now apply (leb_trans x 200 300)).
  pose proof (leb_ltb_false x 50) as L1.
  pose proof (leb_ltb_false x 100) as L2.
  pose proof (leb_ltb_false x 200) as L3.
  pose proof (leb_ltb_false x 300) as L4.
  pose proof (leb_false_ltb x 50 Hx eq_refl) as G1.
  pose proof (leb_false_ltb x 100 Hx eq_refl) as G2.
  pose proof (leb_false_ltb x 200 Hx eq_refl) as G3.
  pose proof (leb_false_ltb x 300 Hx eq_refl) as G4.
  destruct (x <=? 50) eqn:E1; simpl.
  { eexists. split; [reflexivity|].
    rewrite (L1 eq_refl), (L2 (T1 eq_refl)), (L3 (T2 (T1 eq_refl))),
      (L4 (T3 (T2 (T1 eq_refl)))).
    repeat split; try discriminate; intuition discriminate. }
  destruct (x <=? 100) eqn:E2; simpl.
  { eexists. split; [reflexivity|].
    rewrite (G1 eq_refl), (L2 eq_refl), (L3 (T2 eq_refl)),
      (L4 (T3 (T2 eq_refl))).
    repeat split; try discriminate; intuition discriminate. }
  destruct (x <=? 200) eqn:E3; simpl.
  { eexists. split; [reflexivity|].
    rewrite (G1 eq_refl), (G2 eq_refl), (L3 eq_refl), (L4 (T3 eq_refl)).
    repeat split; try discriminate; intuition discriminate. }
  destruct (x <=? 300) eqn:E4; simpl.
  { eexists. split; [reflexivity|].
    rewrite (G1 eq_refl), (G2 eq_refl), (G3 eq_refl), (L4 eq_refl).
    repeat split; try discriminate; intuition discriminate. }
  eexists. split; [reflexivity|].
  rewrite (G1 eq_refl), (G2 eq_refl), (G3 eq_refl), (G4 eq_refl).
  repeat split; try discriminate; intuition discriminate.
Qed.

Lemma aqi_pm25_category_intervals_witness :
  exists label : string,
    aqi_pm25_category (PyFloat 75) = Ok label /\
    (label = "Good" <-> (75 <=? 50) = true) /\
    (label = "Moderate" <-> (50 <? 75) = true /\ (75 <=? 100) = true) /\
    (label = "Unhealthy" <-> (100 <? 75) = true /\ (75 <=? 200) = true) /\
    (label = "Very Unhealthy" <->
       (200 <? 75) = true /\ (75 <=? 300) = true) /\
    (label = "Hazardous" <-> (300 <? 75) = true).
Proof. apply (aqi_pm25_category_intervals 75). reflexivity. Defined.

(** X2: the category is monotone in the reading: for readings x <= y the
    category of x is not above the category of y in the order Good <
    Moderate < Unhealthy < Very Unhealthy < Hazardous. *)
Theorem aqi_pm25_category_monotone (x y : float) :
  (x <=? y) = true ->
  exists (lx ly : string) (tx ty : nat),
    aqi_pm25_category (PyFloat x) = Ok lx /\
    aqi_pm25_category (PyFloat y) = Ok ly /\
    aqi_tier lx = Some tx /\ aqi_tier ly = Some ty /\ (tx <= ty)%nat.
Proof.
  intros Hxy. unfold aqi_pm25_category. simpl.
  assert (T : forall k, (y <=? k) = true -> (x <=? k) = true)
    by (intros k H; now apply (leb_trans x y k)).
  pose proof (T 50) as T1. pose proof (T 100) as T2.
  pose proof (T 200) as T3. pose proof (T 300) as T4.
  destruct (y <=? 50); [rewrite (T1 eq_refl)|];
    [|destruct (y <=? 100); [rewrite ?(T2 eq_refl)|];
      [|destruct (y <=? 200); [rewrite ?(T3 eq_refl)|];
        [|destruct (y <=? 300); [rewrite ?(T4 eq_refl)|]]]];
    destruct (x <=? 50); simpl;
    try destruct (x <=? 100); simpl;
    try destruct (x <=? 200); simpl;
    try destruct (x <=? 300); simpl;
    do 4 eexists;
    (split; [reflexivity|]); (split; [reflexivity|]);
    (split; [reflexivity|]); (split; [reflexivity|]); lia.
Qed.

Lemma aqi_pm25_category_monotone_witness :
  exists (lx ly : string) (tx ty : nat),
    aqi_pm25_category (PyFloat 40) = Ok lx /\
    aqi_pm25_category (PyFloat 120) = Ok ly /\
    aqi_tier lx = Some tx /\ aqi_tier ly = Some ty /\ (tx <= ty)%nat.
Proof. apply (aqi_pm25_category_monotone 40 120). reflexivity. Defined.

End CategoryFacts.

(** ** transform.py: from the raw files to the staged table *)

Lemma mapM_imap_Ok {A B : Type} (f : nat -> A -> result B)
    (g : nat -> A -> B) (l : list A) :
  (forall i x, f i x = Ok (g i x)) ->
  mapM (fun it => f it.1 it.2) (imap pair l) = Ok (imap g l).
Proof.
  intros H.
  assert (G : forall (h : nat -> nat),
    mapM (fun it => f it.1 it.2) (imap (fun i x => (h i, x)) l)
    = Ok (imap (fun i x => g (h i) x) l)).
  { induction l as [|x l IH]; intros h; simpl; [reflexivity|].
    rewrite H. simpl.
    specialize (IH (h ∘ S)). unfold compose in *. simpl in IH.
    rewrite IH. reflexivity. }
  exact (G id).
Qed.

Lemma file_records_eq (f : RawFile) : file_records f = Ok (file_rows f).
Proof.
  unfold file_records, file_rows. destruct (hourly f) as [h|]; [|reflexivity].
  destruct (hourly_is_empty h) eqn:E.
  - unfold hourly_is_empty in E. now destruct (time_array h).
  - apply (mapM_imap_Ok (make_record (city_name f) h)). intros i t.
    apply make_record_Ok.
Qed.

Lemma collect_records_eq (files : list RawFile) :
  collect_records files = Ok (concat (map file_rows files)).
Proof.
  unfold collect_records.
  assert (G : mapM file_records files = Ok (map file_rows files)).
  { induction files as [|f files IH]; simpl; [reflexivity|].
    now rewrite file_records_eq, IH. }
  now rewrite G.
Qed.

Lemma imap_record_keys (c : string) (g : nat -> gmap string cell)
    (times : list Timestamp) :
  map (fun r => (Transform.city r, time r))
      (imap (fun i t => mkRecord c t (g i)) times)
  = map (pair c) times.
Proof.
  revert g. induction times as [|t times IH]; intros g; simpl;
    [reflexivity|].
  f_equal. apply (IH (fun i => g (S i))).
Qed.

Lemma file_rows_keys (f : RawFile) :
  map (fun r => (Transform.city r, time r)) (file_rows f)
  = map (pair (city_name f)) (times_of f).
Proof.
  unfold file_rows, times_of. destruct (hourly f) as [h|]; [|reflexivity].
  apply imap_record_keys.
Qed.

(** X3: record construction flattens the files: the records are, in file
    order and then in time order, one per timestamp of each file, each
    carrying the city of its file, whatever the lengths of the pollutant
    arrays. *)
Theorem collect_records_flatten (files : list RawFile) :
  exists records : list record,
    collect_records files = Ok records /\
    map (fun r => (Transform.city r, time r)) records
    = concat (map (fun f => map (pair (city_name f)) (times_of f)) files) /\
    length records = sum_list (map (fun f => length (times_of f)) files).
Proof.
  exists (concat (map file_rows files)).
  split; [apply collect_records_eq|].
  assert (K : map (fun r => (Transform.city r, time r)) (concat (map file_rows files))
              = concat (map (fun f => map (pair (city_name f)) (times_of f))
                            files)).
  { induction files as [|f files IH]; simpl; [reflexivity|].
    now rewrite map_app, file_rows_keys, IH. }
  split; [exact K|].
  rewrite <- (length_map (fun r => (Transform.city r, time r))), K.
  clear K. induction files as [|f files IH]; simpl; [reflexivity|].
  now rewrite length_app, length_map, IH.
Qed.

Lemma mapM_Raise_elem {A B : Type} (f : A -> result B) (l : list A)
    (e : exn) :
  mapM f l = Raise e -> exists x : A, x ∈ l /\ f x = Raise e.
Proof.
  induction l as [|a l IH]; simpl; [discriminate|].
  destruct (f a) as [y|e'] eqn:Ea; simpl.
  - destruct (mapM f l) as [k|e'] eqn:El; simpl; [discriminate|].
    intros [= ->]. destruct (IH eq_refl) as (x & Hx & Hfx).
    exists x. split; [now right | exact Hfx].
  - intros [= ->]. exists a. split; [left | exact Ea].
Qed.

Lemma mapM_Raise_head {A B : Type} (f : A -> result B) (a : A)
    (l : list A) (e : exn) :
  f a = Raise e -> mapM f (a :: l) = Raise e.
Proof. intros H. simpl. now rewrite H. Qed.

Lemma mapM_all_Ok {A B : Type} (f : A -> result B) (l : list A) :
  (forall x, x ∈ l -> exists y, f x = Ok y) ->
  exists k : list B, mapM f l = Ok k.
Proof.
  induction l as [|a l IH]; intros H; simpl; [eexists; reflexivity|].
  destruct (H a) as [y ->]; [left|]. simpl.
  destruct IH as [k ->]; [intros x Hx; apply H; now right|].
  simpl. eexists. reflexivity.
Qed.

Lemma aqi_pm25_category_float (x : float) :
  exists label : string, aqi_pm25_category (PyFloat x) = Ok label.
Proof.
  unfold aqi_pm25_category. simpl.
  destruct (x <=? 50)%float; simpl; [eexists; reflexivity|].
  destruct (x <=? 100)%float; simpl; [eexists; reflexivity|].
  destruct (x <=? 200)%float; simpl; [eexists; reflexivity|].
  destruct (x <=? 300)%float; simpl; eexists; reflexivity.
Qed.

Lemma aqi_pm25_category_Raise (c : cell) (e : exn) :
  aqi_pm25_category c = Raise e -> c = PyNone /\ e = TypeError.
Proof.
  destruct c as [|x].
  - unfold aqi_pm25_category. simpl. now intros [= <-].
  - destruct (aqi_pm25_category_float x) as [l ->]. discriminate.
Qed.

(** The sum can only fail with [TypeError], and it fails exactly when one
    of the six cells it reads is [None]. *)
Lemma compute_severity_Raise (row : gmap string cell) (e : exn) :
  compute_severity row = Raise e ->
  e = TypeError /\
  exists key : string, key ∈ WEIGHTED /\ row_get row key (PyFloat 0) = PyNone.
Proof.
  unfold compute_severity.
  destruct (row_get row "pm2_5" _) eqn:E1; simpl;
    [intros [= <-]; split; [reflexivity|]; exists "pm2_5";
     split; [unfold WEIGHTED; elem_of_list | exact E1]|].
  destruct (row_get row "pm10" _) eqn:E2; simpl;
    [intros [= <-]; split; [reflexivity|]; exists "pm10";
     split; [unfold WEIGHTED; elem_of_list | exact E2]|].
  destruct (row_get row "nitrogen_dioxide" _) eqn:E3; simpl;
    [intros [= <-]; split; [reflexivity|]; exists "nitrogen_dioxide";
     split; [unfold WEIGHTED; elem_of_list | exact E3]|].
  destruct (row_get row "sulphur_dioxide" _) eqn:E4; simpl;
    [intros [= <-]; split; [reflexivity|]; exists "sulphur_dioxide";
     split; [unfold WEIGHTED; elem_of_list | exact E4]|].
  destruct (row_get row "carbon_monoxide" _) eqn:E5; simpl;
    [intros [= <-]; split; [reflexivity|]; exists "carbon_monoxide";
     split; [unfold WEIGHTED; elem_of_list | exact E5]|].
  destruct (row_get row "ozone" _) eqn:E6; simpl;
    [intros [= <-]; split; [reflexivity|]; exists "ozone";
     split; [unfold WEIGHTED; elem_of_list | exact E6]|].
  discriminate.
Qed.

Lemma compute_severity_None (row : gmap string cell) (key : string) :
  key ∈ WEIGHTED -> row_get row key (PyFloat 0) = PyNone ->
  compute_severity row = Raise TypeError.
Proof.
  unfold WEIGHTED. rewrite !elem_of_cons, elem_of_nil.
  unfold compute_severity.
  intros [-> | [-> | [-> | [-> | [-> | [-> | []]]]]]] H; rewrite H;
    repeat (match goal with
            | |- context [Py.mul (row_get ?r ?k ?d) _] =>
                destruct (row_get r k d)
            end; simpl; try reflexivity).
Qed.

Lemma row_get_None (row : gmap string cell) (key : string) :
  row_get row key (PyFloat 0) = PyNone <-> row !! key = Some PyNone.
Proof.
  unfold row_get. destruct (row !! key) as [c|]; simpl; split;
    congruence.
Qed.

(** In the frame, a cell of a pollutant column is [None] exactly when the
    whole column is. *)
Lemma DataFrame_cell_None (records : list record) (r' : record)
    (key : string) :
  r' ∈ DataFrame records -> cells r' !! key = Some PyNone ->
  object_column records key = true.
Proof.
  unfold DataFrame. intros Hin Hc.
  apply list_elem_of_fmap in Hin as (r & -> & _). simpl in Hc.
  rewrite map_lookup_imap in Hc.
  destruct (cells r !! key) as [c|]; simpl in Hc; [|discriminate].
  injection Hc as Hc. unfold frame_cell in Hc.
  destruct (object_column records key); [reflexivity|].
  destruct c; discriminate.
Qed.

Lemma DataFrame_object_cell (records : list record) (r' : record)
    (key : string) :
  Forall has_columns records -> key ∈ pollutant_cols ->
  object_column records key = true ->
  r' ∈ DataFrame records -> cells r' !! key = Some PyNone.
Proof.
  unfold DataFrame. intros Hcols Hkey Hobj Hin.
  apply list_elem_of_fmap in Hin as (r & -> & Hr). simpl.
  rewrite map_lookup_imap.
  rewrite List.Forall_forall in Hcols.
  assert (Hr' : In r records) by now apply list_elem_of_In.
  destruct (Hcols r Hr' key Hkey) as [c Hc].
  rewrite Hc. simpl. unfold frame_cell. rewrite Hobj.
  unfold object_column in Hobj. rewrite forallb_forall in Hobj.
  specialize (Hobj r). rewrite Hc in Hobj. simpl in Hobj.
  destruct c; [reflexivity|]. now specialize (Hobj Hr').
Qed.

(** The run after record construction. *)
Lemma transform_pipeline_eq (files : list RawFile) :
  transform_pipeline files =
  (df ← dropna_all pollutant_cols (DataFrame (concat (map file_rows files)));
   cats ← mapM (fun r => aqi_pm25_category (column "pm2_5" r)) df;
   sevs ← mapM (fun r => compute_severity (cells r)) df;
   mret (zip_with staged_row df (zip cats sevs))).
Proof. unfold transform_pipeline. now rewrite collect_records_eq. Qed.

(** X4: the transform raises [KeyError] exactly when the raw files hold no
    timestamp at all (no file, or only files without hourly times): the
    frame then has no columns for the row filter to look up. *)
Theorem transform_pipeline_KeyError (files : list RawFile) :
  transform_pipeline files = Raise KeyError <->
  Forall (fun f => times_of f = []) files.
Proof.
  rewrite transform_pipeline_eq.
  assert (E : concat (map file_rows files) = [] <->
              Forall (fun f => times_of f = []) files).
  { induction files as [|f files IH]; simpl.
    - split; [constructor | reflexivity].
    - rewrite Forall_cons, <- IH. split.
      + intros H. apply app_eq_nil in H as [H1 H2]. split; [|exact H2].
        apply (f_equal (map (fun r => (Transform.city r, time r)))) in H1.
        rewrite file_rows_keys in H1.
        now destruct (times_of f).
      + intros [H1 H2]. rewrite H2, app_nil_r.
        pose proof (file_rows_keys f) as K. rewrite H1 in K.
        now destruct (file_rows f). }
  rewrite <- E.
  destruct (concat (map file_rows files)) as [|r records] eqn:R; simpl.
  - split; reflexivity.
  - split; [|discriminate].
    match goal with
    | |- context [mapM ?f ?l ≫= _] =>
        destruct (mapM f l) as [cats|e] eqn:C; simpl
    end.
    + match goal with
      | |- context [mapM ?f ?l ≫= _] =>
          destruct (mapM f l) as [sevs|e] eqn:S; simpl
      end; [discriminate|].
      intros [= ->]. apply mapM_Raise_elem in S as (x & _ & S).
      apply compute_severity_Raise in S as [S _]. discriminate.
    + intros [= ->]. apply mapM_Raise_elem in C as (x & _ & C).
      apply aqi_pm25_category_Raise in C as [_ C]. discriminate.
Qed.

Lemma derive_Raise_inv (records df : list record) (e : exn) :
  Forall has_columns records ->
  (forall x, x ∈ df -> x ∈ DataFrame records) ->
  derive df = Raise e ->
  e = TypeError /\ df <> [] /\
  exists key : string, key ∈ WEIGHTED /\ object_column records key = true.
Proof.
  intros Hcols Hsub. unfold derive.
  apply DataFrame_has_columns in Hcols.
  rewrite List.Forall_forall in Hcols.
  destruct (mapM (fun r => aqi_pm25_category _) df) as [cats|e'] eqn:C;
    simpl.
  - destruct (mapM (fun r => compute_severity _) df) as [sevs|e'] eqn:S;
      simpl; [discriminate|].
    intros [= ->]. apply mapM_Raise_elem in S as (x & Hx & S).
    apply compute_severity_Raise in S as (-> & key & Hkey & Hget).
    split; [reflexivity|]. split; [intros ->; now apply elem_of_nil in Hx|].
    exists key. split; [exact Hkey|].
    apply (DataFrame_cell_None records x); [now apply Hsub|].
    now apply row_get_None.
  - intros [= ->]. apply mapM_Raise_elem in C as (x & Hx & C).
    apply aqi_pm25_category_Raise in C as [C ->].
    split; [reflexivity|]. split; [intros ->; now apply elem_of_nil in Hx|].
    exists "pm2_5". split; [unfold WEIGHTED; elem_of_list|].
    apply (DataFrame_cell_None records x); [now apply Hsub|].
    assert (Hx' : In x (DataFrame records))
      by now apply list_elem_of_In, Hsub.
    destruct (Hcols x Hx' "pm2_5") as [c Hc];
      [unfold pollutant_cols; elem_of_list|].
    unfold column in C. rewrite Hc in C. simpl in C. now rewrite Hc, C.
Qed.

Lemma derive_Raise (records df : list record) (key : string) :
  Forall has_columns records ->
  (forall x, x ∈ df -> x ∈ DataFrame records) ->
  df <> [] -> key ∈ WEIGHTED -> object_column records key = true ->
  derive df = Raise TypeError.
Proof.
  intros Hcols Hsub Hne Hkey Hobj. unfold derive.
  destruct df as [|x df]; [congruence|].
  assert (Hc : cells x !! key = Some PyNone).
  { apply (DataFrame_object_cell records); auto.
    - now apply WEIGHTED_pollutant_cols.
    - apply Hsub. left. }
  destruct (mapM (fun r => aqi_pm25_category _) (x :: df)) as [cats|e] eqn:C.
  - rewrite (mapM_Raise_head (fun r => compute_severity (cells r)) x df
               TypeError); [reflexivity|].
    apply (compute_severity_None _ key Hkey). now apply row_get_None.
  - apply mapM_Raise_elem in C as (y & _ & C).
    apply aqi_pm25_category_Raise in C as [_ ->]. reflexivity.
Qed.

Lemma derive_Ok_or_Raise (df : list record) :
  (exists staged, derive df = Ok staged) \/ (exists e, derive df = Raise e).
Proof. destruct (derive df); eauto. Qed.

Lemma filter_elem_of {A : Type} (f : A -> bool) (l : list A) (x : A) :
  x ∈ List.filter f l -> x ∈ l.
Proof.
  rewrite !list_elem_of_In, filter_In. tauto.
Qed.

Lemma Ok_bind {A B : Type} (a : A) (f : A -> result B) : Ok a ≫= f = f a.
Proof. reflexivity. Qed.

Lemma list_eq_nil_dec {A : Type} (l : list A) : l = [] \/ l <> [].
Proof. destruct l; [left | right]; congruence. Qed.

Lemma transform_pipeline_derive (files : list RawFile)
    (records : list record) :
  collect_records files = Ok records ->
  transform_pipeline files =
  dropna_all pollutant_cols (DataFrame records) ≫= derive.
Proof. intros H. unfold transform_pipeline. now rewrite H. Qed.

Lemma dropna_all_nonempty (subset : list string) (records : list record) :
  records <> [] ->
  dropna_all subset (DataFrame records) =
  Ok (List.filter (fun r => negb (all_missing subset r))
                  (DataFrame records)).
Proof. destruct records; [congruence|]. reflexivity. Qed.

(** X5: when the raw files hold at least one timestamp, the transform
    fails with [TypeError] exactly when some row is kept and one of the
    six weighted pollutants is [None] in every record (its array reaches
    no timestamp in any file); in every other case it returns a table. *)
Theorem transform_pipeline_TypeError (files : list RawFile) :
  exists records : list record,
    collect_records files = Ok records /\
    let kept := List.filter (fun r => negb (all_missing pollutant_cols r))
                            (DataFrame records) in
    let none_column :=
      exists key : string,
        key ∈ WEIGHTED /\ object_column records key = true in
    (transform_pipeline files = Raise TypeError <->
     kept <> [] /\ none_column) /\
    ((exists staged, transform_pipeline files = Ok staged) <->
     records <> [] /\ ~ (kept <> [] /\ none_column)).
Proof.
  destruct (collect_records_Ok files) as (records & Hr & Hcols).
  exists records. split; [exact Hr|]. simpl.
  rewrite (transform_pipeline_derive files records Hr).
  destruct (list_eq_nil_dec records) as [-> | Hne].
  - simpl. split; split; try discriminate.
    + intros [H _]. now contradiction H.
    + intros [staged H]. discriminate.
    + intros [H _]. now contradiction H.
  - rewrite (dropna_all_nonempty _ _ Hne), Ok_bind.
    set (kept := List.filter _ (DataFrame records)).
    assert (Hsub : forall x, x ∈ kept -> x ∈ DataFrame records)
      by (intros x; apply filter_elem_of).
    split; split.
    + intros H.
      destruct (derive_Raise_inv records kept _ Hcols Hsub H)
        as (_ & Hk & Hkey). auto.
    + intros (Hk & key & Hkey & Hobj).
      exact (derive_Raise records kept key Hcols Hsub Hk Hkey Hobj).
    + intros [staged H]. split; [exact Hne|].
      intros (Hk & key & Hkey & Hobj).
      rewrite (derive_Raise records kept key Hcols Hsub Hk Hkey Hobj) in H.
      discriminate.
    + intros [_ Hn].
      destruct (derive_Ok_or_Raise kept) as [H | [e H]]; [exact H|].
      exfalso. apply Hn.
      destruct (derive_Raise_inv records kept _ Hcols Hsub H)
        as (_ & Hk & Hkey). auto.
Qed.

(** X6: every row of a staged table carries the values derived from its
    own cells: the category of its PM2.5, the severity of its six weighted
    cells, the risk of that severity and the hour of its timestamp; and at
    least one of its seven pollutant cells holds a value. *)
Theorem staged_rows_invariant (files : list RawFile)
    (staged : list StagedRow) :
  transform_pipeline files = Ok staged ->
  Forall (fun row =>
            aqi_pm25_category (column "pm2_5" (base row))
            = Ok (AQI_Category row) /\
            compute_severity (cells (base row))
            = Ok (Pollution_Severity row) /\
            Risk_Level row = risk_classification (Pollution_Severity row) /\
            hour_of_day row = Py.hour (time (base row)) /\
            exists p : string,
              p ∈ pollutant_cols /\ isna (column p (base row)) = false)
         staged.
Proof.
  intros H. apply List.Forall_forall. intros row Hin.
  apply list_elem_of_In in Hin.
  destruct (staged_row_derived _ _ _ H Hin) as (Hc & Hs & Hr & Hh).
  repeat (split; [assumption|]).
  destruct (staged_rows_filter _ _ H) as (records & _ & _ & Heq).
  assert (Hb : base row ∈ map base staged) by now apply list_elem_of_fmap_2.
  rewrite Heq in Hb. apply list_elem_of_In, filter_In in Hb as [_ Hb].
  apply negb_true_iff in Hb. now apply all_missing_false.
Qed.

Lemma staged_rows_invariant_witness :
  Forall (fun row =>
            aqi_pm25_category (column "pm2_5" (base row))
            = Ok (AQI_Category row) /\
            compute_severity (cells (base row))
            = Ok (Pollution_Severity row) /\
            Risk_Level row = risk_classification (Pollution_Severity row) /\
            hour_of_day row = Py.hour (time (base row)) /\
            exists p : string,
              p ∈ pollutant_cols /\ isna (column p (base row)) = false)
         (rows_of (transform_pipeline [two_hours])).
Proof.
  apply (staged_rows_invariant [two_hours]).
  destruct (transform_pipeline [two_hours]) as [rows|e] eqn:T;
    [reflexivity | vm_compute in T; discriminate T].
Defined.

(** X21: whenever the transform returns a staged table, the rows under
    it are the rows of the frame that the filter keeps, in the order of
    the frame; a row of the frame is in the table iff at least one of its
    seven pollutant cells holds a value, and left out iff all seven are
    missing. *)
Theorem transform_drops_all_missing (files : list RawFile)
    (staged : list StagedRow) :
  transform_pipeline files = Ok staged ->
  exists records : list record,
    collect_records files = Ok records /\
    map base staged =
    List.filter (fun r => negb (all_missing pollutant_cols r))
                (DataFrame records) /\
    forall r : record, r ∈ DataFrame records ->
      (r ∈ map base staged <->
       exists p : string, p ∈ pollutant_cols /\ isna (column p r) = false) /\
      (r ∉ map base staged <->
       forall p : string, p ∈ pollutant_cols -> isna (column p r) = true).
Proof.
  intros H.
  destruct (staged_rows_filter _ _ H) as (records & Hr & _ & Heq).
  exists records. split; [exact Hr|]. split; [exact Heq|].
  intros r Hin. rewrite Heq.
  assert (K : r ∈ List.filter (fun r => negb (all_missing pollutant_cols r))
                              (DataFrame records)
              <-> all_missing pollutant_cols r = false).
  { rewrite list_elem_of_In, filter_In, negb_true_iff, <- list_elem_of_In.
    tauto. }
  split.
  - rewrite K. apply all_missing_false.
  - rewrite K, <- all_missing_spec. destruct (all_missing pollutant_cols r);
      split; congruence.
Qed.

Lemma transform_drops_all_missing_witness :
  length (rows_of (transform_pipeline [null_first_hour])) = 1 /\
  exists records : list record,
    collect_records [null_first_hour] = Ok records /\
    map base (rows_of (transform_pipeline [null_first_hour])) =
    List.filter (fun r => negb (all_missing pollutant_cols r))
                (DataFrame records) /\
    forall r : record, r ∈ DataFrame records ->
      (r ∈ map base (rows_of (transform_pipeline [null_first_hour])) <->
       exists p : string, p ∈ pollutant_cols /\ isna (column p r) = false) /\
      (r ∉ map base (rows_of (transform_pipeline [null_first_hour])) <->
       forall p : string, p ∈ pollutant_cols -> isna (column p r) = true).
Proof.
  split; [vm_compute; reflexivity|].
  apply (transform_drops_all_missing [null_first_hour]).
  destruct (transform_pipeline [null_first_hour]) as [rows|e] eqn:T;
    [reflexivity | vm_compute in T; discriminate T].
Defined.

(** ** load.py: batches, requests and the retry branch *)

Lemma sum_list_append (l1 l2 : list nat) :
  sum_list (l1 ++ l2) = sum_list l1 + sum_list l2.
Proof. induction l1 as [|n l1 IH]; simpl; lia. Qed.

Section LoadFacts.

Context {A : Type}.
Variable execute : nat -> list A -> response.

Lemma inserted_emit_print (m : message) (st : @state A) :
  inserted (trace (emit (Print m) st)) = inserted (trace st).
Proof. unfold emit. simpl. rewrite inserted_app. apply app_nil_r. Qed.

Lemma requests_emit (e : event A) (st : @state A) :
  requests (emit e st) = requests st.
Proof. reflexivity. Qed.

Lemma load_batch_requests (batch_size i : nat) (batch : list A)
    (st : state) :
  requests (load_batch execute batch_size i batch st) =
  requests st + length (attempts execute (requests st) batch).
Proof.
  unfold load_batch, attempts, insert, emit. simpl.
  destruct (execute (requests st) batch); simpl;
    [| destruct (execute (S (requests st)) batch); simpl |]; lia.
Qed.

Lemma load_loop_sent (batch_size : nat) (bs : list (nat * list A))
    (st : state) :
  exists sent : list (list (list A)),
    Forall2 (fun b ks => ks = [b.2] \/ ks = [b.2; b.2]) bs sent /\
    inserted (trace (load_loop execute batch_size bs st)) =
    inserted (trace st) ++ concat sent /\
    requests (load_loop execute batch_size bs st) =
    requests st + length (concat sent).
Proof.
  revert st. induction bs as [|b bs IH]; intros st; simpl.
  - exists []. split; [constructor|]. simpl. rewrite app_nil_r. auto.
  - destruct (IH (load_batch execute batch_size b.1 b.2 st))
      as (sent & Hsent & Heq & Hreq).
    exists (attempts execute (requests st) b.2 :: sent). split; [|split].
    + constructor; [|exact Hsent]. unfold attempts.
      destruct (execute (requests st) b.2); auto.
    + unfold load_loop in Heq |- *. simpl. rewrite Heq, load_batch_inserted.
      now rewrite <- app_assoc.
    + unfold load_loop in Hreq |- *. simpl.
      rewrite Hreq, load_batch_requests, length_app. lia.
Qed.

Lemma sent_bounds (bs : list (nat * list A)) (sent : list (list (list A))) :
  Forall2 (fun b ks => ks = [b.2] \/ ks = [b.2; b.2]) bs sent ->
  length bs <= length (concat sent) <= 2 * length bs.
Proof.
  induction 1 as [|b ks bs sent [-> | ->] _ IH]; simpl; lia.
Qed.

(** X8: for a positive batch size and whatever the store answers, the
    load sends every batch, in order, once or twice and nothing else; the
    number of requests lies between the number of batches and twice that
    number. *)
Theorem load_sends_every_batch (records : list A) (batch_size : nat) :
  0 < batch_size ->
  exists (st : state) (bs : list (nat * list A))
         (sent : list (list (list A))),
    load_to_supabase execute records batch_size = Ok st /\
    batches records batch_size = Ok bs /\
    Forall2 (fun b ks => ks = [b.2] \/ ks = [b.2; b.2]) bs sent /\
    inserted (trace st) = concat sent /\
    requests st = length (concat sent) /\
    length bs <= requests st <= 2 * length bs.
Proof.
  intros Hb. unfold load_to_supabase, batches, range.
  destruct (Nat.eqb_spec batch_size 0) as [->|_]; [lia|].
  rewrite !Ok_bind.
  set (bs := map _ (range_from _ _ _ _)).
  destruct (load_loop_sent batch_size bs
              (emit (Print (MsgLoading (length records) batch_size))
                    (mkState 0 []))) as (sent & Hsent & Heq & Hreq).
  eexists. exists bs, sent. split; [reflexivity|]. split; [reflexivity|].
  split; [exact Hsent|].
  rewrite inserted_emit_print, requests_emit, Heq, Hreq.
  rewrite inserted_emit_print, requests_emit. simpl.
  split; [reflexivity|]. split; [reflexivity|]. now apply sent_bounds.
Qed.

Lemma load_slept_app (tr1 tr2 : list (event A)) :
  slept (tr1 ++ tr2) = slept tr1 + slept tr2.
Proof. unfold slept. now rewrite omap_app, sum_list_append. Qed.

Lemma load_batch_slept (batch_size i : nat) (batch : list A) (st : state) :
  slept (trace (load_batch execute batch_size i batch st))
  + 3 * S (requests st) =
  slept (trace st)
  + 3 * requests (load_batch execute batch_size i batch st).
Proof.
  unfold load_batch, insert, emit. simpl.
  destruct (execute (requests st) batch); simpl;
    [| destruct (execute (S (requests st)) batch); simpl |];
    rewrite ?load_slept_app; unfold slept; simpl; lia.
Qed.

Lemma load_loop_slept (batch_size : nat) (bs : list (nat * list A)) :
  forall st : state,
    slept (trace (load_loop execute batch_size bs st))
    + 3 * (requests st + length bs) =
    slept (trace st) + 3 * requests (load_loop execute batch_size bs st).
Proof.
  unfold load_loop.
  induction bs as [|b bs IH]; intros st; simpl; [lia|].
  pose proof (IH (load_batch execute batch_size b.1 b.2 st)) as H.
  pose proof (load_batch_slept batch_size b.1 b.2 st) as Hb.
  lia.
Qed.

(** X22: for a positive batch size and whatever the store answers, the
    load waits 3 seconds for every request beyond the first one of a
    batch and at no other time: the seconds slept in the whole run are
    three times the number of requests made in excess of the number of
    batches. *)
Theorem load_sleeps_per_retry (records : list A) (batch_size : nat) :
  0 < batch_size ->
  exists (st : state) (bs : list (nat * list A)),
    load_to_supabase execute records batch_size = Ok st /\
    batches records batch_size = Ok bs /\
    length bs <= requests st /\
    slept (trace st) = 3 * (requests st - length bs).
Proof.
  intros Hb. unfold load_to_supabase, batches, range.
  destruct (Nat.eqb_spec batch_size 0) as [->|_]; [lia|].
  rewrite !Ok_bind.
  set (bs := map _ (range_from _ _ _ _)).
  set (st0 := emit (Print (MsgLoading (length records) batch_size))
                   (mkState 0 [])).
  pose proof (load_loop_slept batch_size bs st0) as H.
  eexists. exists bs. split; [reflexivity|]. split; [reflexivity|].
  rewrite requests_emit. unfold emit at 1. simpl trace.
  rewrite load_slept_app.
  change (slept [Print MsgLoadComplete]) with 0.
  change (slept (trace st0)) with 0 in H.
  change (requests st0) with 0 in H.
  lia.
Qed.

End LoadFacts.

Lemma load_sends_every_batch_witness :
  exists (st : state) (bs : list (nat * list nat))
         (sent : list (list (list nat))),
    load_to_supabase first_request_raises [1; 2; 3; 4; 5] 2 = Ok st /\
    batches [1; 2; 3; 4; 5] 2 = Ok bs /\
    Forall2 (fun b ks => ks = [b.2] \/ ks = [b.2; b.2]) bs sent /\
    inserted (trace st) = concat sent /\
    requests st = length (concat sent) /\
    length bs <= requests st <= 2 * length bs.
Proof.
  apply (load_sends_every_batch first_request_raises [1; 2; 3; 4; 5] 2). lia.
Defined.

Lemma load_sleeps_per_retry_witness :
  exists (st : state) (bs : list (nat * list nat)),
    load_to_supabase
      (fun k _ => match k with 2 => ErrorResponse | _ => Inserted end)
      [1; 2; 3; 4; 5] 2 = Ok st /\
    batches [1; 2; 3; 4; 5] 2 = Ok bs /\
    length bs <= requests st /\
    slept (trace st) = 3 * (requests st - length bs).
Proof.
  apply (load_sleeps_per_retry
           (fun k _ => match k with 2 => ErrorResponse | _ => Inserted end)
           [1; 2; 3; 4; 5] 2).
  lia.
Defined.

Lemma range_from_lookup (fuel i stop step k j : nat) :
  range_from fuel i stop step !! k = Some j ->
  j = i + k * step /\ j < stop.
Proof.
  revert i k. induction fuel as [|fuel IH]; intros i k; simpl;
    [discriminate|].
  destruct (Nat.ltb_spec i stop) as [Hlt|Hge]; [|discriminate].
  destruct k as [|k]; simpl.
  - intros [= <-]. lia.
  - intros H. apply IH in H. lia.
Qed.

(** X10: for a positive batch size the k-th batch starts at offset k*B and
    holds the rows from there up to B of them; it is numbered k+1 in the
    messages, it is never empty, and every batch but the last holds
    exactly B rows. *)
Theorem batches_shape {A : Type} (records : list A) (batch_size : nat) :
  0 < batch_size ->
  exists bs : list (nat * list A),
    batches records batch_size = Ok bs /\
    forall (k : nat) (b : nat * list A), bs !! k = Some b ->
      b.1 = k * batch_size /\
      b.2 = take batch_size (drop (k * batch_size) records) /\
      b.2 <> [] /\
      Nat.div b.1 batch_size + 1 = S k /\
      (S k < length bs -> length b.2 = batch_size).
Proof.
  intros Hb. unfold batches, range.
  destruct (Nat.eqb_spec batch_size 0) as [->|_]; [lia|].
  rewrite Ok_bind. eexists. split; [reflexivity|].
  intros k b Hk. rewrite list_lookup_fmap in Hk.
  destruct (range_from _ _ _ _ !! k) as [j|] eqn:Hj; [|discriminate].
  injection Hk as <-. simpl.
  pose proof (range_from_lookup _ _ _ _ _ _ Hj) as [-> Hlt]. simpl in *.
  unfold slice. replace (k * batch_size + batch_size - k * batch_size)
    with batch_size by lia.
  split; [reflexivity|]. split; [reflexivity|]. split; [|split].
  - intros H. apply (f_equal length) in H.
    rewrite length_take, length_drop in H. simpl in H. lia.
  - rewrite Nat.div_mul by lia. lia.
  - rewrite length_map. intros Hlast.
    destruct (lookup_lt_is_Some_2 _ _ Hlast) as [j' Hj'].
    apply range_from_lookup in Hj' as [-> Hlt'].
    rewrite length_take, length_drop. simpl in Hlt'. lia.
Qed.

Lemma batches_shape_witness :
  exists bs : list (nat * list nat),
    batches [1; 2; 3; 4; 5] 2 = Ok bs /\
    forall (k : nat) (b : nat * list nat), bs !! k = Some b ->
      b.1 = k * 2 /\
      b.2 = take 2 (drop (k * 2) [1; 2; 3; 4; 5]) /\
      b.2 <> [] /\
      Nat.div b.1 2 + 1 = S k /\
      (S k < length bs -> length b.2 = 2).
Proof. apply (batches_shape [1; 2; 3; 4; 5] 2). lia. Defined.

(** ** load.py: the column renaming *)

Lemma assoc_rename_map_target (col v : string) :
  assoc col rename_map = Some v -> assoc v rename_map = None.
Proof.
  unfold rename_map. cbn [assoc].
  repeat match goal with
         | |- context [String.eqb ?k col] => destruct (String.eqb k col)
         end;
    intros H; try discriminate H; injection H as <-; reflexivity.
Qed.

(** X11: the renaming turns the columns of the staged table, in order,
    into the columns of the store's table after the generated [id]; it
    leaves every column of that table unchanged, and renaming twice is
    renaming once. *)
Theorem rename_matches_table :
  map rename staged_columns = tail table_columns /\
  (forall col : string, col ∈ table_columns -> rename col = col) /\
  (forall col : string, rename (rename col) = rename col).
Proof.
  split; [reflexivity|]. split.
  - unfold table_columns. intros col. rewrite !elem_of_cons, elem_of_nil.
    intros H. repeat destruct H as [-> | H]; try reflexivity. destruct H.
  - intros col. destruct (assoc col rename_map) as [v|] eqn:E.
    + assert (H : rename col = v) by (unfold rename; now rewrite E).
      rewrite H. unfold rename.
      now rewrite (assoc_rename_map_target _ _ E).
    + assert (H : rename col = col) by (unfold rename; now rewrite E).
      now rewrite !H.
Qed.

(** ** extract.py: fetching with retries *)

Section FetchFacts.

Import Extract.

Variable get : nat -> float -> float -> reply.

Lemma slept_app (tr1 tr2 : list event) :
  slept (tr1 ++ tr2) = slept tr1 + slept tr2.
Proof. unfold slept. now rewrite omap_app, sum_list_append. Qed.

Lemma slept_cons (e : event) (tr : list event) :
  slept (e :: tr) = match e with Sleep n => n | _ => 0 end + slept tr.
Proof. now destruct e. Qed.

Ltac slept_simpl :=
  rewrite ?slept_app, ?slept_cons; change (slept []) with 0; simpl.

Lemma fetch_loop_success (city_name : string) (lat lon : float)
    (retries wait : nat) (d : ApiData) (k : nat) :
  forall (attempt remaining : nat) (st : state),
    k < remaining ->
    (forall j, j < k -> get (requests st + j) lat lon = Failed) ->
    get (requests st + k) lat lon = Fetched d ->
    let out :=
      fetch_loop get city_name lat lon retries wait attempt remaining st in
    out.1 = Some d /\
    requests out.2 = requests st + k + 1 /\
    slept (trace out.2) = slept (trace st) + k * wait /\
    saved_files out.2 = saved_files st.
Proof.
  induction k as [|k IH]; intros attempt remaining st Hk Hfail Hok;
    (destruct remaining as [|remaining]; [lia|]); simpl.
  - rewrite Nat.add_0_r in Hok. rewrite Hok. simpl.
    destruct (hourly_missing d); simpl; slept_simpl;
      repeat split; lia.
  - assert (H0 : get (requests st) lat lon = Failed)
      by (rewrite <- (Nat.add_0_r (requests st)); apply Hfail; lia).
    rewrite H0.
    match goal with
    | |- context [fetch_loop _ _ _ _ _ _ _ _ ?s] =>
        destruct (IH (S attempt) remaining s) as (H1 & H2 & H3 & H4)
    end.
    + lia.
    + intros j Hj. simpl.
      replace (S (requests st + j)) with (requests st + S j) by lia.
      apply Hfail. lia.
    + simpl. replace (S (requests st + k)) with (requests st + S k) by lia.
      exact Hok.
    + simpl in *. rewrite H1, H2, H3, H4. slept_simpl.
      repeat split; lia.
Qed.

Lemma fetch_loop_exhausted (city_name : string) (lat lon : float)
    (retries wait : nat) :
  forall (remaining attempt : nat) (st : state),
    (forall j, j < remaining -> get (requests st + j) lat lon = Failed) ->
    let out :=
      fetch_loop get city_name lat lon retries wait attempt remaining st in
    out.1 = None /\
    requests out.2 = requests st + remaining /\
    slept (trace out.2) = slept (trace st) + remaining * wait /\
    saved_files out.2 = saved_files st.
Proof.
  induction remaining as [|remaining IH]; intros attempt st Hfail; simpl.
  - slept_simpl. repeat split; lia.
  - assert (H0 : get (requests st) lat lon = Failed)
      by (rewrite <- (Nat.add_0_r (requests st)); apply Hfail; lia).
    rewrite H0.
    match goal with
    | |- context [fetch_loop _ _ _ _ _ _ _ _ ?s] =>
        destruct (IH (S attempt) s) as (H1 & H2 & H3 & H4)
    end.
    + intros j Hj. simpl.
      replace (S (requests st + j)) with (requests st + S j) by lia.
      apply Hfail. lia.
    + simpl in *. rewrite H1, H2, H3, H4. slept_simpl.
      repeat split; lia.
Qed.

(** X12: when the first k requests for a city fail and the next one, still
    within the allowed attempts, succeeds, the fetch returns the data of
    that request, after k+1 requests and k waits; no further request is
    sent. *)
Theorem fetch_city_data_first_success (city_name : string)
    (lat lon : float) (retries wait : nat) (st : state) (k : nat)
    (d : ApiData) :
  k < retries ->
  (forall j, j < k -> get (requests st + j) lat lon = Failed) ->
  get (requests st + k) lat lon = Fetched d ->
  let out := fetch_city_data get city_name lat lon retries wait st in
  out.1 = Some d /\
  requests out.2 = requests st + k + 1 /\
  slept (trace out.2) = slept (trace st) + k * wait /\
  saved_files out.2 = saved_files st.
Proof. intros Hk Hf Hok. now apply fetch_loop_success. Qed.

(** X13: when all the allowed requests for a city fail, the fetch returns
    nothing after exactly [retries] requests, having waited after every
    one of them, the last included. *)
Theorem fetch_city_data_exhausted (city_name : string) (lat lon : float)
    (retries wait : nat) (st : state) :
  (forall j, j < retries -> get (requests st + j) lat lon = Failed) ->
  let out := fetch_city_data get city_name lat lon retries wait st in
  out.1 = None /\
  requests out.2 = requests st + retries /\
  slept (trace out.2) = slept (trace st) + retries * wait /\
  saved_files out.2 = saved_files st.
Proof. intros Hf. now apply fetch_loop_exhausted. Qed.

End FetchFacts.

Lemma fetch_city_data_first_success_witness :
  let out :=
    Extract.fetch_city_data Extract.second_request_succeeds "Delhi" 28.5 77
      3 2 (Extract.mkState 0 [] []) in
  out.1 = Some (Extract.mkApiData None true) /\
  Extract.requests out.2 = 0 + 1 + 1 /\
  Extract.slept (Extract.trace out.2) = Extract.slept [] + 1 * 2 /\
  Extract.saved_files out.2 = [].
Proof.
  apply (fetch_city_data_first_success Extract.second_request_succeeds "Delhi"
           28.5 77 3 2 (Extract.mkState 0 [] []) 1
           (Extract.mkApiData None true)).
  - lia.
  - intros j Hj. destruct j; [reflexivity | lia].
  - reflexivity.
Defined.

Lemma fetch_city_data_exhausted_witness :
  let out :=
    Extract.fetch_city_data (fun _ _ _ => Extract.Failed) "Delhi" 28.5
      77 3 2 (Extract.mkState 0 [] []) in
  out.1 = None /\
  Extract.requests out.2 = 0 + 3 /\
  Extract.slept (Extract.trace out.2) = Extract.slept [] + 3 * 2 /\
  Extract.saved_files out.2 = [].
Proof.
  apply (fetch_city_data_exhausted (fun _ _ _ => Extract.Failed) "Delhi"
           28.5 77 3 2 (Extract.mkState 0 [] [])).
  intros j Hj. reflexivity.
Defined.

(** ** extract.py and transform.py: the files of a run and their cities *)

Section StringFacts.

Lemma prefix_empty (s : string) : String.prefix "" s = true.
Proof. now destruct s. Qed.

Lemma rfind_dot_json (s : string) :
  rfind_dot (s ++ ".json") = Some (String.length s).
Proof.
  induction s as [|c s IH]; [reflexivity|].
  simpl. now rewrite IH.
Qed.

Lemma substring_append (s t : string) :
  String.substring 0 (String.length s) (s ++ t) = s.
Proof.
  induction s as [|c s IH]; simpl.
  - now destruct t.
  - now rewrite IH.
Qed.

Lemma length_append (s t : string) :
  String.length (s ++ t) = String.length s + String.length t.
Proof. induction s as [|c s IH]; simpl; [reflexivity | now rewrite IH]. Qed.

Lemma string_app_assoc (a b c : string) :
  (a ++ (b ++ c))%string = ((a ++ b) ++ c)%string.
Proof.
  induction a as [|x a IH]; [reflexivity|].
  change (String x (a ++ (b ++ c)) = String x ((a ++ b) ++ c))%string.
  now f_equal.
Qed.

Lemma stem_json (s : string) : s <> "" -> stem (s ++ ".json") = s.
Proof.
  intros Hs. unfold stem. rewrite rfind_dot_json, length_append.
  assert (Hlen : 0 < String.length s)
    by (destruct s; [congruence | simpl; lia]).
  change (String.length ".json") with 5.
  destruct (Nat.ltb_spec 0 (String.length s)); [|lia].
  destruct (Nat.ltb_spec (String.length s) (String.length s + 5 - 1));
    [|lia].
  simpl. apply substring_append.
Qed.

Lemma ascii_lower_not_underscore (c : ascii) :
  is_upper c || is_lower c = true -> ascii_lower c <> "_"%char.
Proof.
  destruct c as [[] [] [] [] [] [] [] []]; vm_compute; congruence.
Qed.

Lemma ascii_upper_lower (c : ascii) :
  is_upper c = true -> ascii_upper (ascii_lower c) = c.
Proof.
  destruct c as [[] [] [] [] [] [] [] []]; vm_compute; congruence.
Qed.

Lemma ascii_lower_lower (c : ascii) :
  is_lower c = true -> ascii_lower c = c.
Proof.
  destruct c as [[] [] [] [] [] [] [] []]; vm_compute; congruence.
Qed.

Lemma lower_lowercase (s : string) :
  forallb is_lower (String.list_ascii_of_string s) = true -> lower s = s.
Proof.
  induction s as [|c s IH]; simpl; [reflexivity|].
  intros H. apply andb_prop in H as [Hc Hs].
  now rewrite (ascii_lower_lower c Hc), IH.
Qed.

Lemma before_sep_letters (s t : string) :
  forallb (fun c => is_upper c || is_lower c)
          (String.list_ascii_of_string s) = true ->
  before_sep "_raw_" (lower s ++ "_raw_" ++ t) = lower s.
Proof.
  induction s as [|c s IH]; intros H.
  - simpl. destruct t; reflexivity.
  - simpl in H. apply andb_prop in H as [Hc Hs].
    pose proof (ascii_lower_not_underscore c Hc) as Hne.
    change (lower (String c s)) with (String (ascii_lower c) (lower s)).
    change (before_sep "_raw_"
              (String (ascii_lower c) (lower s) ++ "_raw_" ++ t))
      with (if String.prefix "_raw_"
                 (String (ascii_lower c) (lower s ++ "_raw_" ++ t))
            then ""
            else String (ascii_lower c)
                   (before_sep "_raw_" (lower s ++ "_raw_" ++ t))).
    rewrite (IH Hs).
    change (String.prefix "_raw_"
              (String (ascii_lower c) (lower s ++ "_raw_" ++ t)))
      with (if ascii_dec "_" (ascii_lower c)
            then String.prefix "raw_" (lower s ++ "_raw_" ++ t)
            else false).
    destruct (ascii_dec "_" (ascii_lower c)) as [E|_]; [congruence|].
    reflexivity.
Qed.

End StringFacts.

Lemma city_of_file_capitalized (city_name timestamp : string) :
  Extract.capitalized city_name = true ->
  city_of_file (Extract.raw_filename city_name timestamp) = city_name.
Proof.
  intros Hc. unfold city_of_file, Extract.raw_filename.
  destruct city_name as [|u rest]; [discriminate|].
  simpl in Hc. apply andb_prop in Hc as [Hu Hrest].
  rewrite !string_app_assoc, stem_json by (simpl; discriminate).
  rewrite <- string_app_assoc, before_sep_letters.
  - simpl. rewrite (ascii_upper_lower u Hu).
    f_equal. rewrite (lower_lowercase rest Hrest).
    apply (lower_lowercase rest Hrest).
  - simpl. rewrite Hu. simpl.
    clear -Hrest. induction rest as [|c rest IH]; simpl in *; [reflexivity|].
    apply andb_prop in Hrest as [Hc Hr]. rewrite Hc, orb_true_r. simpl. auto.
Qed.

Lemma CITIES_capitalized :
  Forall (fun c => Extract.capitalized c.1 = true) Extract.CITIES.
Proof. repeat constructor. Qed.



Section ExtractAllFacts.

Import Extract.

Variable get : nat -> float -> float -> reply.
Variable now : nat -> string.

Lemma written_app (tr1 tr2 : list event) :
  written (tr1 ++ tr2) = written tr1 ++ written tr2.
Proof. apply omap_app. Qed.

Lemma first_attempts_app (tr1 tr2 : list event) :
  first_attempts (tr1 ++ tr2) = first_attempts tr1 ++ first_attempts tr2.
Proof. apply omap_app. Qed.

(** A fetch saves nothing and writes nothing; from the second attempt on
    it sends no first attempt. *)
Lemma fetch_loop_frame (city_name : string) (lat lon : float)
    (retries wait : nat) :
  forall (remaining attempt : nat) (st : state),
    let out :=
      fetch_loop get city_name lat lon retries wait attempt remaining st in
    saved_files out.2 = saved_files st /\
    written (trace out.2) = written (trace st) /\
    requests st <= requests out.2 <= requests st + remaining /\
    (0 < remaining -> requests st < requests out.2) /\
    (2 <= attempt ->
     first_attempts (trace out.2) = first_attempts (trace st)).
Proof.
  induction remaining as [|remaining IH]; intros attempt st; simpl.
  - rewrite written_app, first_attempts_app. simpl.
    rewrite !app_nil_r. repeat split; lia.
  - destruct (get (requests st) lat lon) as [data|].
    + destruct (hourly_missing data); simpl;
        rewrite !written_app, !first_attempts_app; simpl;
        rewrite !app_nil_r; repeat split; try lia;
        intros H; (destruct attempt as [|[|a]]; [lia | lia |]);
        simpl; now rewrite ?app_nil_r.
    + match goal with
      | |- context [fetch_loop _ _ _ _ _ _ _ _ ?s] =>
          destruct (IH (S attempt) s) as (H1 & H2 & H3 & H4 & H5)
      end.
      simpl in *. rewrite H1, H2, !written_app. simpl.
      rewrite !app_nil_r. repeat split; try lia.
      intros H. rewrite H5 by lia. rewrite !first_attempts_app.
      destruct attempt as [|[|a]]; [lia | lia |].
      simpl. now rewrite !app_nil_r.
Qed.

Lemma fetch_city_data_first_attempt (city_name : string) (lat lon : float)
    (retries wait : nat) (st : state) :
  0 < retries ->
  first_attempts
    (trace (fetch_city_data get city_name lat lon retries wait st).2)
  = first_attempts (trace st) ++ [(lat, lon)].
Proof.
  intros Hr. unfold fetch_city_data.
  destruct retries as [|retries]; [lia|]. simpl.
  destruct (get (requests st) lat lon) as [data|].
  - destruct (hourly_missing data); simpl;
      rewrite !first_attempts_app; simpl; now rewrite !app_nil_r.
  - match goal with
    | |- context [fetch_loop _ _ _ _ _ _ ?a ?r ?s] =>
        destruct (fetch_loop_frame city_name lat lon (S retries) wait r a s)
          as (_ & _ & _ & _ & H5)
    end.
    simpl in H5. rewrite H5 by lia.
    rewrite !first_attempts_app. simpl. now rewrite !app_nil_r.
Qed.

Lemma extract_city_facts (c : string * (float * float)) (st : state) :
  written (trace st) = saved_files st ->
  let st' := extract_city get now c st in
  first_attempts (trace st') = first_attempts (trace st) ++ [c.2] /\
  written (trace st') = saved_files st' /\
  requests st + 1 <= requests st' <= requests st + 3 /\
  (saved_files st' = saved_files st \/
   exists ts, saved_files st' = saved_files st ++ [raw_filename c.1 ts]).
Proof.
  intros Hinv. unfold extract_city.
  destruct c as [name [lat lon]]. simpl.
  pose proof (fetch_city_data_first_attempt name lat lon 3 2 st) as Hfa.
  destruct (fetch_loop_frame name lat lon 3 2 3 1 st)
    as (H1 & H2 & H3 & H4 & _).
  unfold fetch_city_data in *.
  destruct (fetch_loop get name lat lon 3 2 1 3 st) as [data st1].
  simpl in *. specialize (Hfa ltac:(lia)).
  destruct data as [data|]; [destruct (truthy data)|]; simpl.
  - rewrite first_attempts_app, written_app, H2, H1, Hinv, Hfa. simpl.
    rewrite app_nil_r. repeat split; try lia. right. eauto.
  - rewrite H2, H1, Hinv, Hfa. repeat split; try lia. now left.
  - rewrite H2, H1, Hinv, Hfa. repeat split; try lia. now left.
Qed.

End ExtractAllFacts.

Section ExtractRunFacts.

Import Extract.

Variable get : nat -> float -> float -> reply.
Variable now : nat -> string.

Lemma extract_cities_facts (cities : list (string * (float * float))) :
  forall st : state,
    written (trace st) = saved_files st ->
    let st' :=
      fold_left (fun st city => extract_city get now city st) cities st in
    first_attempts (trace st') = first_attempts (trace st) ++ map snd cities /\
    written (trace st') = saved_files st' /\
    requests st + length cities <= requests st'
      <= requests st + 3 * length cities /\
    exists (chosen : list (string * (float * float))) (names : list string),
      chosen `sublist_of` cities /\
      saved_files st' = saved_files st ++ names /\
      Forall2 (fun c name => exists ts, name = raw_filename c.1 ts)
              chosen names.
Proof.
  induction cities as [|c cities IH]; intros st Hinv; simpl.
  - rewrite app_nil_r. repeat split; try lia; auto.
    exists [], []. rewrite app_nil_r. repeat split; constructor.
  - destruct (extract_city_facts get now c st Hinv) as (F1 & F2 & F3 & F4).
    destruct (IH (extract_city get now c st) F2)
      as (G1 & G2 & G3 & chosen & names & Hsub & Hsaved & Hnames).
    simpl in *. rewrite G1, F1, <- app_assoc. simpl.
    repeat split; try lia; auto.
    destruct F4 as [F4 | [ts F4]]; rewrite F4 in Hsaved.
    + exists chosen, names. split; [now apply sublist_cons|]. auto.
    + exists (c :: chosen), (raw_filename c.1 ts :: names).
      split; [now apply sublist_skip|]. rewrite <- app_assoc in Hsaved.
      split; [exact Hsaved|]. constructor; eauto.
Qed.

(** X15: in every run of the extraction, whatever the service answers,
    each configured city is asked for in the configured order (a city
    that fails does not stop the next ones); between 5 and 15 requests
    are sent; the files returned are the files written; and they are raw
    files of configured cities, at most one per city and in the
    configured order, from whose names the transform reads those cities
    back. *)
Theorem extract_all_run :
  let out := extract_all get now in
  first_attempts (trace out) = map snd CITIES /\
  written (trace out) = saved_files out /\
  5 <= requests out <= 15 /\
  exists chosen : list (string * (float * float)),
    chosen `sublist_of` CITIES /\
    Forall2 (fun c name => exists ts, name = raw_filename c.1 ts)
            chosen (saved_files out) /\
    map Transform.city_of_file (saved_files out) = map fst chosen.
Proof.
  unfold extract_all.
  pose proof (extract_cities_facts CITIES (mkState 0 [] [Print MsgStarting])
                eq_refl) as H.
  cbv zeta in H.
  remember (fold_left _ CITIES _) as run eqn:Hrun. clear Hrun.
  destruct H as (G1 & G2 & G3 & chosen & names & Hsub & Hsaved & Hnames).
  simpl in G1, G3, Hsaved. cbv zeta. unfold emit. simpl.
  rewrite first_attempts_app, written_app, G1, G2. simpl.
  rewrite !app_nil_r. repeat split; try lia.
  exists chosen. rewrite Hsaved. split; [exact Hsub|].
  split; [exact Hnames|].
  assert (Hcap : Forall (fun c => capitalized c.1 = true) chosen).
  { apply List.Forall_forall. intros c Hc.
    pose proof CITIES_capitalized as K.
    rewrite List.Forall_forall in K. apply K.
    apply list_elem_of_In. eapply elem_of_sublist; [|exact Hsub].
    now apply list_elem_of_In. }
  clear -Hnames Hcap.
  induction Hnames as [|c name chosen names [ts ->] _ IH]; simpl;
    [reflexivity|].
  apply Forall_cons in Hcap as [Hc Hcap].
  rewrite city_of_file_capitalized by exact Hc. f_equal. now apply IH.
Qed.

End ExtractRunFacts.

(** ** etl_analysis.py: the per-city means *)

Section GroupFacts.

Import Analysis.

Lemma insert_key_elem (x k : string) (keys : list string) :
  x ∈ insert_key k keys <-> x = k \/ x ∈ keys.
Proof.
  induction keys as [|k' keys IH]; simpl.
  - rewrite list_elem_of_singleton, elem_of_nil. tauto.
  - destruct (String.compare k k') eqn:E.
    + apply String.compare_eq_iff in E as ->. rewrite elem_of_cons. tauto.
    + rewrite elem_of_cons. tauto.
    + rewrite !elem_of_cons, IH. tauto.
Qed.

Lemma group_keys_elem (df : list StoredRow) (c : string) :
  c ∈ group_keys df <-> exists r, r ∈ df /\ city r = c.
Proof.
  unfold group_keys. induction df as [|r df IH]; simpl.
  - rewrite elem_of_nil. split; [tauto|]. intros (r & Hr & _).
    now apply elem_of_nil in Hr.
  - rewrite insert_key_elem, IH. split.
    + intros [-> | (r' & Hr' & Hc)].
      * exists r. split; [left | reflexivity].
      * exists r'. split; [now right | exact Hc].
    + intros (r' & Hr' & Hc). apply elem_of_cons in Hr' as [-> | Hr'];
        [now left | right; eauto].
Qed.

Lemma name_lt_irrefl (a : string) : ~ name_lt a a.
Proof. unfold name_lt. rewrite string_compare_refl. discriminate. Qed.

Lemma sorted_names_NoDup (keys : list string) :
  StronglySorted name_lt keys -> NoDup keys.
Proof.
  induction 1 as [|k keys Hs IH Hall]; constructor; [|exact IH].
  intros Hin. rewrite List.Forall_forall in Hall.
  apply list_elem_of_In, Hall in Hin. now apply name_lt_irrefl in Hin.
Qed.

Lemma groupby_mean_keys (col : StoredRow -> float) (df : list StoredRow) :
  map fst (groupby_mean col df) = group_keys df.
Proof.
  unfold groupby_mean. rewrite map_map. simpl. apply map_id.
Qed.

Lemma groupby_mean_elem (col : StoredRow -> float) (df : list StoredRow)
    (c : string) (m : float) :
  (c, m) ∈ groupby_mean col df <->
  c ∈ group_keys df /\ m = mean (group_values col df c).
Proof.
  unfold groupby_mean. rewrite list_elem_of_fmap. split.
  - intros (k & [= -> ->] & Hk). auto.
  - intros [Hc ->]. exists c. auto.
Qed.

(** X16: the per-city means are indexed by the cities of the rows: the
    index is in ascending name order, holds no city twice, and holds a
    city exactly when some row is of that city. *)
Theorem groupby_mean_index (col : StoredRow -> float)
    (df : list StoredRow) :
  index_sorted (groupby_mean col df) /\
  NoDup (map fst (groupby_mean col df)) /\
  (forall c : string,
     c ∈ map fst (groupby_mean col df) <-> exists r, r ∈ df /\ city r = c).
Proof.
  split; [apply groupby_mean_sorted|]. rewrite groupby_mean_keys.
  split; [apply sorted_names_NoDup, group_keys_sorted|].
  apply group_keys_elem.
Qed.

Lemma mean_not_nan (xs : list float) :
  is_nan (mean xs) = false -> exists x, x ∈ xs /\ is_nan x = false.
Proof.
  unfold mean.
  destruct (List.filter (fun x => negb (is_nan x)) xs) as [|x present] eqn:E;
    [discriminate|].
  intros _. exists x.
  assert (H : In x (List.filter (fun x => negb (is_nan x)) xs))
    by (rewrite E; now left).
  apply filter_In in H as [H1 H2]. apply negb_true_iff in H2.
  split; [now apply list_elem_of_In | exact H2].
Qed.

Lemma mean_all_nan (xs : list float) :
  Forall (fun x => is_nan x = true) xs -> mean xs = nan.
Proof.
  intros H. unfold mean.
  replace (List.filter (fun x => negb (is_nan x)) xs) with (@nil float);
    [reflexivity|].
  induction H as [|x xs Hx _ IH]; simpl; [reflexivity|].
  now rewrite Hx.
Qed.

Lemma dropna_elem (s : Series) (c : string) (m : float) :
  (c, m) ∈ dropna s <-> (c, m) ∈ s /\ is_nan m = false.
Proof.
  unfold dropna. rewrite !list_elem_of_In, filter_In. simpl.
  now rewrite negb_true_iff.
Qed.

(** X17: when the summary names a city for the highest mean of a column,
    that city has a row with a value in the column, and the value
    reported with it is the compensated mean over that city's rows and is
    not NaN. *)
Theorem city_highest_in_data (col : StoredRow -> float)
    (df : list StoredRow) (c : string) (m : float) :
  city_highest col df = Ok (Some c, Some m) ->
  (exists r, r ∈ df /\ city r = c /\ is_nan (col r) = false) /\
  m = mean (group_values col df c) /\
  is_nan m = false.
Proof.
  intros H.
  assert (Hne : df <> []) by (intros ->; discriminate).
  destruct (city_highest_spec col df Hne) as [[_ E] | (c' & m' & E & Hf)];
    rewrite E in H; [discriminate|].
  injection H as -> ->. destruct Hf as (Hin & _).
  apply dropna_elem in Hin as [Hin Hm].
  apply groupby_mean_elem in Hin as [_ ->].
  split; [|auto].
  destruct (mean_not_nan _ Hm) as (x & Hx & Hnan).
  unfold group_values in Hx. apply list_elem_of_fmap in Hx as (r & -> & Hr).
  apply list_elem_of_In, filter_In in Hr as [Hr Hc].
  apply String.eqb_eq in Hc. exists r.
  split; [now apply list_elem_of_In | auto].
Qed.

(** X18: on a frame that has rows, when the column is NaN in every row
    the summary names no city and no value, and nothing is raised. *)
Theorem city_highest_no_values (col : StoredRow -> float)
    (df : list StoredRow) :
  df <> [] ->
  Forall (fun r => is_nan (col r) = true) df ->
  city_highest col df = Ok (None, None).
Proof.
  intros Hne H. rewrite (city_highest_rows col df Hne).
  replace (dropna (groupby_mean col df)) with (@nil (string * float));
    [reflexivity|].
  unfold dropna, groupby_mean.
  induction (group_keys df) as [|k keys IH]; simpl; [reflexivity|].
  rewrite mean_all_nan; [exact IH|].
  unfold group_values. apply Forall_map.
  apply List.Forall_forall. intros r Hr. apply filter_In in Hr as [Hr _].
  rewrite List.Forall_forall in H. now apply H.
Qed.

End GroupFacts.

(** The compensated sum of 0.1, 0.2 and 0.3 gives a mean just below the
    binary64 value of 0.2, so the city and the hour with the single
    reading 0.2 are the ones named. *)
#[warnings="-inexact-float"]
Lemma close_means_highest :
  (Analysis.mean [0.1; 0.2; 0.3] <? 0.2)%float = true /\
  Analysis.city_highest Analysis.pm2_5 Analysis.close_means =
    Ok (Some "Bhopal", Some 0.2%float) /\
  Analysis.worst_aqi_hour
    [(5, 0.1%float); (5, 0.2%float); (5, 0.3%float); (3, 0.2%float)] =
    (Some 3, Some 0.2%float).
Proof. repeat split; vm_compute; reflexivity. Qed.

#[warnings="-inexact-float"]
Lemma city_highest_in_data_witness :
  (exists r, r ∈ Analysis.close_means /\ Analysis.city r = "Bhopal" /\
             is_nan (Analysis.pm2_5 r) = false) /\
  0.2%float = Analysis.mean
                (Analysis.group_values Analysis.pm2_5 Analysis.close_means
                   "Bhopal") /\
  is_nan 0.2 = false.
Proof.
  apply (city_highest_in_data Analysis.pm2_5 Analysis.close_means "Bhopal").
  vm_compute. reflexivity.
Defined.

Lemma city_highest_no_values_witness :
  Analysis.city_highest Analysis.pm2_5
    [Analysis.mkStoredRow "Delhi" nan 250;
     Analysis.mkStoredRow "Mumbai" nan 90] = Ok (None, None).
Proof.
  apply (city_highest_no_values Analysis.pm2_5
           [Analysis.mkStoredRow "Delhi" nan 250;
            Analysis.mkStoredRow "Mumbai" nan 90]).
  - discriminate.
  - repeat constructor.
Defined.

(** ** etl_analysis.py: the trend table *)

Section TrendFacts.

Import Analysis.

Lemma string_compare_Gt_Lt (a b : string) :
  String.compare a b = Gt -> String.compare b a = Lt.
Proof. intros H. now rewrite String.compare_antisym, H. Qed.

Lemma time_leb_total (a b : option Z) :
  time_leb a b = false -> time_leb b a = true.
Proof. destruct a, b; simpl; try congruence. lia. Qed.

Lemma time_leb_trans (a b c : option Z) :
  time_leb a b = true -> time_leb b c = true -> time_leb a c = true.
Proof. destruct a, b, c; simpl; try congruence. lia. Qed.

Lemma trend_leb_total (a b : TrendRow) :
  trend_leb a b = false -> trend_leb b a = true.
Proof.
  unfold trend_leb. rewrite (String.compare_antisym (t_city a) (t_city b)).
  destruct (String.compare (t_city b) (t_city a)); simpl;
    [apply time_leb_total | reflexivity | discriminate].
Qed.

Lemma trend_leb_trans (a b c : TrendRow) :
  trend_leb a b = true -> trend_leb b c = true -> trend_leb a c = true.
Proof.
  unfold trend_leb.
  destruct (String.compare (t_city a) (t_city b)) eqn:E1; [| |discriminate];
    (destruct (String.compare (t_city b) (t_city c)) eqn:E2;
     [| |discriminate]).
  - apply String.compare_eq_iff in E1, E2. rewrite E1, E2.
    rewrite string_compare_refl. apply time_leb_trans.
  - apply String.compare_eq_iff in E1. rewrite E1, E2. reflexivity.
  - apply String.compare_eq_iff in E2. rewrite <- E2, E1. reflexivity.
  - pose proof (string_compare_lt_trans _ _ _ E1 E2) as T.
    unfold name_lt in T. rewrite T. reflexivity.
Qed.

Lemma insert_row_Permutation (x : TrendRow) (l : list TrendRow) :
  Permutation (x :: l) (insert_row x l).
Proof.
  induction l as [|y l IH]; simpl; [reflexivity|].
  destruct (trend_leb x y); [reflexivity|].
  rewrite <- IH. apply perm_swap.
Qed.

Lemma insert_row_sorted (x : TrendRow) (l : list TrendRow) :
  StronglySorted (fun a b => trend_leb a b = true) l ->
  StronglySorted (fun a b => trend_leb a b = true) (insert_row x l).
Proof.
  induction 1 as [|y l Hs IH Hall]; simpl.
  - repeat constructor.
  - destruct (trend_leb x y) eqn:E.
    + constructor; [now constructor|]. constructor; [exact E|].
      eapply List.Forall_impl; [|exact Hall]. intros z Hz.
      now apply (trend_leb_trans x y z).
    + constructor; [exact IH|].
      apply trend_leb_total in E.
      rewrite <- (insert_row_Permutation x l). constructor; assumption.
Qed.

(** X19: the trend table holds exactly the rows it was given, each as
    many times as given, ordered by city name and, within a city, by
    time with missing times last. *)
Theorem pollution_trends_sorted (rows : list TrendRow) :
  Permutation rows (pollution_trends rows) /\
  StronglySorted (fun a b => trend_leb a b = true) (pollution_trends rows) /\
  length (pollution_trends rows) = length rows.
Proof.
  assert (P : Permutation rows (pollution_trends rows)).
  { unfold pollution_trends. induction rows as [|x rows IH]; simpl;
      [reflexivity|].
    rewrite <- insert_row_Permutation. now constructor. }
  split; [exact P|]. split; [|symmetry; now apply Permutation_length].
  clear P. unfold pollution_trends. induction rows as [|x rows IH]; simpl.
  - constructor.
  - now apply insert_row_sorted.
Qed.

End TrendFacts.

(** ** etl_analysis.py: the worst hour *)

Section HourFacts.

Import Analysis.

Context {K : Type}.

Lemma idxmax_from_key_split (rest pre mid : list (K * float))
    (best : K * float) :
  is_nan best.2 = false ->
  Forall (fun kv => is_nan kv.2 = false) rest ->
  Forall (fun kv => (kv.2 <? best.2)%float = true) pre ->
  Forall (fun kv => (kv.2 <=? best.2)%float = true) mid ->
  exists pre' post : list (K * float),
    pre ++ best :: mid ++ rest = pre' ++ idxmax_from_key best rest :: post /\
    Forall (fun kv => (kv.2 <? (idxmax_from_key best rest).2)%float = true)
           pre' /\
    Forall (fun kv => (kv.2 <=? (idxmax_from_key best rest).2)%float = true)
           post.
Proof.
  revert pre mid best.
  induction rest as [|kv rest IH]; intros pre mid best Hb Hrest Hpre Hmid;
    simpl.
  - exists pre, mid. now rewrite app_nil_r.
  - apply Forall_cons in Hrest as [Hkv Hrest].
    destruct (best.2 <? kv.2)%float eqn:E.
    + destruct (IH (pre ++ best :: mid) [] kv Hkv Hrest)
        as (pre' & post & Heq & H1 & H2).
      * apply Forall_app. split; [|constructor; [exact E|]].
        -- eapply List.Forall_impl; [|exact Hpre]. simpl. intros x Hx.
           now apply (ltb_trans _ best.2).
        -- eapply List.Forall_impl; [|exact Hmid]. simpl. intros x Hx.
           now apply (leb_ltb_trans _ best.2).
      * constructor.
      * exists pre', post. split; [|auto]. rewrite <- Heq. simpl.
        now rewrite <- app_assoc.
    + destruct (IH pre (mid ++ [kv]) best Hb Hrest Hpre)
        as (pre' & post & Heq & H1 & H2).
      * apply Forall_app. split; [exact Hmid|]. constructor; [|constructor].
        now apply ltb_false_leb.
      * exists pre', post. split; [|auto]. rewrite <- Heq.
        now rewrite <- app_assoc.
Qed.

Lemma max_idxmax_from_key (rest : list (K * float)) (best : K * float) :
  fold_left (fun m kv' => if (m <? kv'.2)%float then kv'.2 else m)
            rest best.2
  = (idxmax_from_key best rest).2.
Proof.
  revert best. induction rest as [|kv rest IH]; intros best; simpl;
    [reflexivity|].
  destruct (best.2 <? kv.2)%float; apply IH.
Qed.

Lemma StronglySorted_filter (R : K -> K -> Prop) (f : K -> bool)
    (l : list K) :
  StronglySorted R l -> StronglySorted R (List.filter f l).
Proof.
  induction 1 as [|x l Hs IH Hall]; simpl; [constructor|].
  destruct (f x); [|exact IH]. constructor; [exact IH|].
  rewrite List.Forall_forall in Hall |- *.
  intros y Hy. apply Hall. apply filter_In in Hy. tauto.
Qed.

End HourFacts.

Section WorstHourFacts.

Import Analysis.

Lemma insert_hour_elem (x h : nat) (hours : list nat) :
  x ∈ insert_hour h hours <-> x = h \/ x ∈ hours.
Proof.
  induction hours as [|h' hours IH]; simpl.
  - rewrite list_elem_of_singleton, elem_of_nil. tauto.
  - destruct (Nat.compare_spec h h') as [-> | Hlt | Hgt].
    + rewrite elem_of_cons. tauto.
    + rewrite elem_of_cons. tauto.
    + rewrite !elem_of_cons, IH. tauto.
Qed.

Lemma insert_hour_sorted (h : nat) (hours : list nat) :
  StronglySorted lt hours -> StronglySorted lt (insert_hour h hours).
Proof.
  induction 1 as [|h' hours Hs IH Hall]; simpl.
  - repeat constructor.
  - destruct (Nat.compare_spec h h') as [-> | Hlt | Hgt].
    + now constructor.
    + constructor; [now constructor|]. constructor; [exact Hlt|].
      eapply List.Forall_impl; [|exact Hall]. intros z Hz. simpl in Hz. lia.
    + constructor; [exact IH|]. apply List.Forall_forall. intros z Hz.
      apply list_elem_of_In, insert_hour_elem in Hz as [-> | Hz];
        [exact Hgt|].
      rewrite List.Forall_forall in Hall. apply Hall.
      now apply list_elem_of_In.
Qed.

Lemma hour_groupby_mean_sorted (rows : list (nat * float)) :
  StronglySorted (fun a b => a.1 < b.1) (hour_groupby_mean rows).
Proof.
  unfold hour_groupby_mean.
  assert (Hs : StronglySorted lt
                 (foldr (fun r hours => insert_hour r.1 hours) [] rows)).
  { induction rows as [|r rows IH]; simpl; [constructor|].
    now apply insert_hour_sorted. }
  induction Hs as [|h hours Hs IH Hall]; simpl; [constructor|].
  constructor; [exact IH|]. apply Forall_map.
  eapply List.Forall_impl; [|exact Hall]. auto.
Qed.

Lemma hour_groupby_mean_elem (rows : list (nat * float)) (h : nat)
    (m : float) :
  (h, m) ∈ hour_groupby_mean rows ->
  m = mean (map snd (List.filter (fun r => Nat.eqb r.1 h) rows)).
Proof.
  unfold hour_groupby_mean. rewrite list_elem_of_fmap.
  now intros (k & [= -> ->] & _).
Qed.

(** X20: when the summary names a worst hour, it is the earliest hour
    among the hours whose mean PM2.5 is the highest: no hour has a
    greater mean, every hour with an equal mean is not earlier, and the
    hour has a row with a PM2.5 value. *)
Theorem worst_aqi_hour_earliest (rows : list (nat * float)) (h : nat)
    (m : float) :
  worst_aqi_hour rows = (Some h, Some m) ->
  let by_hour :=
    List.filter (fun kv => negb (is_nan kv.2)) (hour_groupby_mean rows) in
  (h, m) ∈ by_hour /\
  (forall h' m', (h', m') ∈ by_hour -> (m' <=? m)%float = true) /\
  (forall h' m', (h', m') ∈ by_hour -> (m' =? m)%float = true -> h <= h') /\
  (exists r, r ∈ rows /\ r.1 = h /\ is_nan r.2 = false).
Proof.
  unfold worst_aqi_hour. intros H. cbv zeta.
  pose proof (StronglySorted_filter _ (fun kv => negb (is_nan kv.2)) _
                (hour_groupby_mean_sorted rows)) as Hs.
  assert (Hn : Forall (fun kv : nat * float => is_nan kv.2 = false)
                 (List.filter (fun kv => negb (is_nan kv.2))
                              (hour_groupby_mean rows))).
  { apply List.Forall_forall. intros kv Hkv.
    apply filter_In in Hkv as [_ Hkv]. now apply negb_true_iff in Hkv. }
  assert (Hsub : forall kv,
    kv ∈ List.filter (fun kv => negb (is_nan kv.2)) (hour_groupby_mean rows)
    -> kv ∈ hour_groupby_mean rows) by (intros kv; apply filter_elem_of).
  destruct (List.filter _ (hour_groupby_mean rows)) as [|kv rest];
    [discriminate|].
  rewrite max_idxmax_from_key in H.
  apply Forall_cons in Hn as [Hkv Hrest].
  destruct (idxmax_from_key_split rest [] [] kv Hkv Hrest)
    as (pre & post & Heq & Hpre & Hpost); [constructor..|].
  simpl in Heq.
  destruct (idxmax_from_key kv rest) as [h0 m0] eqn:Ei. simpl in *.
  injection H as -> ->. rewrite Heq in Hs, Hsub |- *.
  rewrite List.Forall_forall in Hpre, Hpost.
  assert (Hin : (h, m) ∈ pre ++ (h, m) :: post)
    by (apply elem_of_app; right; left).
  assert (Hm : is_nan m = false).
  { rewrite <- Heq in Hin. apply elem_of_cons in Hin as [<- | Hin];
      [exact Hkv|].
    rewrite List.Forall_forall in Hrest.
    apply (Hrest (h, m)). now apply list_elem_of_In. }
  assert (Hmm : (m <=? m)%float = true).
  { apply ltb_false_leb; auto.
    destruct (m <? m)%float eqn:E; [|reflexivity].
    unfold is_nan in Hm. apply negb_false_iff in Hm.
    now rewrite (eqb_ltb_false _ _ Hm) in E. }
  split; [exact Hin|]. split; [|split].
  - intros h' m' Hi. apply elem_of_app in Hi as [Hi | Hi].
    + apply list_elem_of_In, Hpre in Hi. now apply ltb_leb.
    + apply elem_of_cons in Hi as [[= -> ->] | Hi]; [exact Hmm|].
      now apply list_elem_of_In, Hpost in Hi.
  - intros h' m' Hi Heqb. apply elem_of_app in Hi as [Hi | Hi].
    + apply list_elem_of_In, Hpre in Hi. simpl in Hi.
      now rewrite (eqb_ltb_false _ _ Heqb) in Hi.
    + apply elem_of_cons in Hi as [[= -> ->] | Hi]; [lia|].
      clear -Hs Hi. induction pre as [|y pre IH]; simpl in Hs.
      * apply StronglySorted_inv in Hs as [_ Hs].
        rewrite List.Forall_forall in Hs.
        apply list_elem_of_In, Hs in Hi. simpl in Hi. lia.
      * apply StronglySorted_inv in Hs as [Hs _]. auto.
  - apply Hsub, hour_groupby_mean_elem in Hin.
    rewrite Hin in Hm. destruct (mean_not_nan _ Hm) as (x & Hx & Hnan).
    apply list_elem_of_fmap in Hx as (r & -> & Hr).
    apply list_elem_of_In, filter_In in Hr as [Hr Hh].
    apply Nat.eqb_eq in Hh. exists r.
    split; [now apply list_elem_of_In | auto].
Qed.

End WorstHourFacts.

Lemma worst_aqi_hour_earliest_witness :
  let by_hour :=
    List.filter (fun kv => negb (is_nan kv.2))
      (Analysis.hour_groupby_mean [(9, 80%float); (7, 80%float);
                                   (8, 20%float)]) in
  (7, 80%float) ∈ by_hour /\
  (forall h' m', (h', m') ∈ by_hour -> (m' <=? 80)%float = true) /\
  (forall h' m', (h', m') ∈ by_hour -> (m' =? 80)%float = true -> 7 <= h') /\
  (exists r, r ∈ [(9, 80%float); (7, 80%float); (8, 20%float)] /\
             r.1 = 7 /\ is_nan r.2 = false).
Proof.
  apply (worst_aqi_hour_earliest [(9, 80%float); (7, 80%float);
                                  (8, 20%float)] 7 80).
  vm_compute. reflexivity.
Defined.
